(** * digital-skeptic: the extraction and heuristic-analysis pipeline

    A shallow embedding of the two route handlers of the repository,

      - [src/app/api/analyze/route.ts]  ([analyzeArticle], [POST]), and
      - [src/unnamed/part_000], the scrape route
                                        ([generateAnalysis], [POST]),

    together with the properties of the specification checked against them.

    Modelling conventions.

    - A JavaScript string is a [string]: a sequence of code units below
      256, the Latin-1 range U+0000 to U+00FF, a character of Rocq being
      the code unit of its number.  On these strings the white-space
      class of [\s] and [trim], [toLowerCase] and [toUpperCase] are
      those of ECMAScript: U+00A0 is white space, the accented capitals
      U+00C0 to U+00DE (but U+00D7) have lower-case forms, and the upper
      case of U+00B5, U+00DF and U+00FF leaves the range, which is why
      [toUpperCase] returns code units.  Text with a code unit from 256
      on is outside the model.
    - A request body is what [request.json()] gives: a failure, or a
      JSON value, whose numbers are the doubles of JavaScript.
    - [Array.prototype.length] and [String.prototype.length] are [nat];
      the credibility score is a [Z].  Every number the handlers compute is
      an integer far below 2^53, so the arithmetic of doubles is exact.
    - cheerio is a collaborator outside the repository: a loaded document
      is a record giving, per selector, the texts of the matched elements
      in document order and the attributes of the first match.
    - The network is a collaborator too: [fetch] is a function from the
      URL to the document of a successful response, or nothing. *)

From Stdlib Require Import Bool Arith ZArith Lia List Ascii String.
From Stdlib Require PrimFloat.
Import ListNotations.

Open Scope string_scope.
Open Scope list_scope.
Open Scope nat_scope.

(** ** JavaScript string primitives *)

Module JS.

Definition code (c : ascii) : nat := nat_of_ascii c.

(** White space of [\s] and of [trim] below 256:
    TAB, LF, VT, FF, CR, SPACE and NO-BREAK SPACE (U+00A0). *)
Definition isSpace (c : ascii) : bool :=
  let n := code c in
  ((9 <=? n) && (n <=? 13)) || (n =? 32) || (n =? 160).

(** [\d] *)
Definition isDigit (c : ascii) : bool :=
  let n := code c in (48 <=? n) && (n <=? 57).

(** The letters A to Z. *)
Definition isAsciiUpper (c : ascii) : bool :=
  let n := code c in (65 <=? n) && (n <=? 90).

(** The letters a to z. *)
Definition isAsciiLower (c : ascii) : bool :=
  let n := code c in (97 <=? n) && (n <=? 122).

(** The characters with a lower-case form: A to Z, and U+00C0 to U+00DE
    without the multiplication sign U+00D7. *)
Definition isUpper (c : ascii) : bool :=
  let n := code c in
  isAsciiUpper c
  || ((192 <=? n) && (n <=? 214))
  || ((216 <=? n) && (n <=? 222)).

(** The characters whose upper-case form is 32 below: a to z, and
    U+00E0 to U+00FE without the division sign U+00F7. *)
Definition isLower (c : ascii) : bool :=
  let n := code c in
  isAsciiLower c
  || ((224 <=? n) && (n <=? 246))
  || ((248 <=? n) && (n <=? 254)).

(** The lower-case form of a character; it stays below 256. *)
Definition lowerChar (c : ascii) : ascii :=
  if isUpper c then ascii_of_nat (code c + 32) else c.

(** The upper-case form of a character, in code units: U+00B5 gives
    U+039C, U+00DF gives "SS" and U+00FF gives U+0178. *)
Definition upperUnits (c : ascii) : list nat :=
  let n := code c in
  if isLower c then [n - 32]
  else if n =? 181 then [924]
  else if n =? 223 then [83; 83]
  else if n =? 255 then [376]
  else [n].

(** The case mapping of the letters A to Z and a to z alone. *)
Definition asciiLowerChar (c : ascii) : ascii :=
  if isAsciiUpper c then ascii_of_nat (code c + 32) else c.

Definition asciiUpperChar (c : ascii) : ascii :=
  if isAsciiLower c then ascii_of_nat (code c - 32) else c.

Fixpoint mapChars (f : ascii -> ascii) (s : string) : string :=
  match s with
  | EmptyString => EmptyString
  | String c r => String (f c) (mapChars f r)
  end.

(** [s.toLowerCase()] *)
Definition toLowerCase (s : string) : string := mapChars lowerChar s.

(** The code units of a string. *)
Definition codeUnits (s : string) : list nat :=
  map code (list_ascii_of_string s).

(** [s.toUpperCase()], as code units. *)
Definition toUpperCase (s : string) : list nat :=
  flat_map upperUnits (list_ascii_of_string s).

(** [a === b] on strings given by their code units. *)
Definition sameUnits (a b : list nat) : bool :=
  if list_eq_dec Nat.eq_dec a b then true else false.

(** A string with its letters a to z turned into A to Z, and the
    converse; they are not operations of the handlers. *)
Definition asciiUpperCase (s : string) : string := mapChars asciiUpperChar s.
Definition asciiLowerCase (s : string) : string := mapChars asciiLowerChar s.

(** [s.startsWith(p)] *)
Fixpoint startsWith (p s : string) : bool :=
  match p, s with
  | EmptyString, _ => true
  | String _ _, EmptyString => false
  | String a p', String b s' => Ascii.eqb a b && startsWith p' s'
  end.

(** [s.includes(p)]: [p] occurs in [s] as a substring. *)
Fixpoint includes (s p : string) : bool :=
  startsWith p s ||
  match s with
  | EmptyString => false
  | String _ r => includes r p
  end.

Fixpoint existsChar (f : ascii -> bool) (s : string) : bool :=
  match s with
  | EmptyString => false
  | String c r => f c || existsChar f r
  end.

(** [/\d+/.test(s)] *)
Definition testDigits (s : string) : bool := existsChar isDigit s.

Fixpoint trimStart (s : string) : string :=
  match s with
  | EmptyString => EmptyString
  | String c r => if isSpace c then trimStart r else s
  end.

(** Removes the white space at the end: a character is dropped when it
    is white space and nothing but white space follows it. *)
Fixpoint trimEnd (s : string) : string :=
  match s with
  | EmptyString => EmptyString
  | String c r =>
      match trimEnd r with
      | EmptyString => if isSpace c then EmptyString else String c EmptyString
      | r' => String c r'
      end
  end.

(** [s.trim()] *)
Definition trim (s : string) : string := trimEnd (trimStart s).

(** [s.split(/[class]+/)] for a character class [sep]: the pieces
    between the maximal runs of separator characters.  A run at the
    start or at the end leaves an empty piece there, and the empty
    string splits into one empty piece.  [inRun] tells that the
    previous character was a separator. *)
Fixpoint splitRuns (sep : ascii -> bool) (inRun : bool) (s : string)
  : list string :=
  match s with
  | EmptyString => [EmptyString]
  | String c r =>
      if sep c then
        if inRun then splitRuns sep true r
        else EmptyString :: splitRuns sep true r
      else
        match splitRuns sep false r with
        | piece :: pieces => String c piece :: pieces
        | [] => [String c EmptyString]
        end
  end.

Definition split (sep : ascii -> bool) (s : string) : list string :=
  splitRuns sep false s.

(** [s.replace(/\s+/g, " ")] *)
Fixpoint collapseRuns (inRun : bool) (s : string) : string :=
  match s with
  | EmptyString => EmptyString
  | String c r =>
      if isSpace c then
        if inRun then collapseRuns true r
        else String " " (collapseRuns true r)
      else String c (collapseRuns false r)
  end.

Definition collapseSpaces (s : string) : string := collapseRuns false s.

(** [xs.join(sep)] *)
Definition join (sep : string) (xs : list string) : string :=
  String.concat sep xs.

(** [s.substring(0, n)] *)
Definition substring0 (n : nat) (s : string) : string :=
  String.substring 0 n s.

(** [xs.slice(0, n)] *)
Definition slice0 {A : Type} (n : nat) (xs : list A) : list A := firstn n xs.

(** [xs.some(f)] *)
Definition some {A : Type} (f : A -> bool) (xs : list A) : bool :=
  existsb f xs.

(** The [||] of JavaScript on strings that may be [undefined]:
    the left operand unless it is falsy (undefined or empty). *)
Definition truthy (v : option string) : bool :=
  match v with
  | Some (String _ _) => true
  | _ => false
  end.

Definition orElse (a b : option string) : option string :=
  if truthy a then a else b.

Definition strLen (s : string) : nat := String.length s.

End JS.

(** ** Request bodies

    What [await request.json()] gives when it does not throw: a JSON
    value.  A number is a double. *)

Module Json.

#[local] Unset Elimination Schemes.

Inductive Value :=
| VNull
| VBool (b : bool)
| VNumber (x : PrimFloat.float)
| VString (s : string)
| VArray (items : list Value)
| VObject (members : list (string * Value)).

#[local] Set Elimination Schemes.

(** The value of a key of a parsed object; of two members with the
    same key the later one counts. *)
Fixpoint member (key : string) (members : list (string * Value))
  : option Value :=
  match members with
  | [] => None
  | (k, v) :: rest =>
      match member key rest with
      | Some later => Some later
      | None => if String.eqb k key then Some v else None
      end
  end.

(** [body[key]] for the keys the handlers read ("content", "title",
    "url"): only an object can have them; on a string, a number, a
    boolean or an array they are [undefined], here [None]. *)
Definition property (body : Value) (key : string) : option Value :=
  match body with
  | VObject members => member key members
  | _ => None
  end.

(** [!!v], for a value that may be [undefined]: false for [undefined],
    [null], [false], zero (and NaN) and the empty string. *)
Definition truthy (v : option Value) : bool :=
  match v with
  | None => false
  | Some VNull => false
  | Some (VBool b) => b
  | Some (VNumber x) =>
      negb (PrimFloat.eqb x PrimFloat.zero || negb (PrimFloat.eqb x x))
  | Some (VString EmptyString) => false
  | Some (VString (String _ _)) => true
  | Some (VArray _) => true
  | Some (VObject _) => true
  end.

(** The string an analyzer is given for its [url] parameter, which it
    never reads: the value itself when it is a string. *)
Definition urlText (v : option Value) : string :=
  match v with
  | Some (VString s) => s
  | _ => ""
  end.

(** An element that is the string "!". *)
Definition isBang (v : Value) : bool :=
  match v with
  | VString s => String.eqb s "!"
  | _ => false
  end.

End Json.

(** ** The result of an analysis

    [interface AnalysisResult] of [src/app/api/analyze/route.ts]; the
    scrape route returns an object of the same shape. *)

Record StrengthsWeaknesses := {
  strengths : list string;
  weaknesses : list string
}.

Record OverallAssessment := {
  credibilityScore : Z;
  biasIndicators : list string;
  strengthsWeaknesses : StrengthsWeaknesses
}.

Record LanguageAnalysis := {
  tone : string;
  objectivity : string;
  emotionalLanguage : list string;
  hedgingLanguage : list string
}.

Record AnalysisResult := {
  coreClaims : list string;
  languageAnalysis : LanguageAnalysis;
  redFlags : list string;
  verificationQuestions : list string;
  overallAssessment : OverallAssessment
}.

(** [if (c) xs.push(x)] *)
Definition pushIf (c : bool) (x : string) (xs : list string) : list string :=
  if c then xs ++ [x] else xs.

(** [Math.max(0, Math.min(100, n))] *)
Definition clamp (n : Z) : Z := Z.max 0 (Z.min 100 n).

(** The character class of [/[.!?]+/]. *)
Definition isSentenceEnd (c : ascii) : bool :=
  Ascii.eqb c "." || Ascii.eqb c "!" || Ascii.eqb c "?".

(** The one-character strings of a double and of a single quote. *)
Definition dquote : string := String (ascii_of_nat 34) EmptyString.
Definition squote : string := String (ascii_of_nat 39) EmptyString.

(** ** The analyze route: [src/app/api/analyze/route.ts] *)

Module Analyze.

Definition sentences (content : string) : list string :=
  filter (fun s => 10 <? JS.strLen (JS.trim s))
         (JS.split isSentenceEnd content).

Definition emotionalWords : list string :=
  [ "shocking"; "devastating"; "incredible"; "amazing";
    "terrible"; "outrageous"; "unbelievable"; "stunning" ].

Definition foundEmotional (content : string) : list string :=
  filter (fun word => JS.includes (JS.toLowerCase content) word)
         emotionalWords.

Definition hedgingWords : list string :=
  [ "allegedly"; "reportedly"; "sources say"; "it appears";
    "seems to"; "might"; "could be" ].

Definition foundHedging (content : string) : list string :=
  filter (fun phrase => JS.includes (JS.toLowerCase content) phrase)
         hedgingWords.

Definition claimIndicators : list string :=
  [ "is"; "are"; "will"; "has"; "have"; "shows"; "proves"; "demonstrates" ].

(** The predicate of the filter of [potentialClaims]. *)
Definition hasIndicator (s : string) : bool :=
  JS.some (fun indicator => JS.includes (JS.toLowerCase s) indicator)
          claimIndicators.

Definition potentialClaims (content : string) : list string :=
  map JS.trim (JS.slice0 5 (filter hasIndicator (sentences content))).

Definition hasQuotes (content : string) : bool :=
  JS.includes content dquote || JS.includes content squote.

Definition hasNumbers (content : string) : bool := JS.testDigits content.

Definition hasSourceAttribution (content : string) : bool :=
  JS.includes (JS.toLowerCase content) "according to"
  || JS.includes (JS.toLowerCase content) "source".

(** [let tone = "neutral"; if ... else if ...] *)
Definition calcTone (content : string) : string :=
  if 2 <? List.length (foundEmotional content) then "emotional"
  else if 1 <? List.length (foundHedging content) then "cautious"
  else if hasNumbers content && hasSourceAttribution content
       then "analytical"
  else "neutral".

(** [let credibilityScore = 50; ...] up to the clamp. *)
Definition rawScore (content : string) : Z :=
  let s0 := 50%Z in
  let s1 := if hasQuotes content then (s0 + 15)%Z else s0 in
  let s2 := if hasNumbers content then (s1 + 10)%Z else s1 in
  let s3 := if hasSourceAttribution content then (s2 + 20)%Z else s2 in
  let s4 := if 3 <? List.length (foundEmotional content)
            then (s3 - 20)%Z else s3 in
  let s5 := if List.length (sentences content) <? 10
            then (s4 - 15)%Z else s4 in
  s5.

Definition calcCredibilityScore (content : string) : Z :=
  clamp (rawScore content).

Definition sensationalTitle (title : string) : bool :=
  JS.includes title "!"
  || JS.sameUnits (JS.toUpperCase title) (JS.codeUnits title).

Definition calcRedFlags (content title : string) : list string :=
  let f0 := [] in
  let f1 := pushIf (3 <? List.length (foundEmotional content))
              "Heavy use of emotional language may indicate bias" f0 in
  let f2 := pushIf (negb (hasSourceAttribution content))
              "Limited source attribution - claims not well-supported" f1 in
  let f3 := pushIf (List.length (sentences content) <? 10)
              "Article appears unusually short for the topic" f2 in
  let f4 := pushIf (sensationalTitle title)
              "Sensationalized headline" f3 in
  let f5 := pushIf (negb (hasNumbers content)
                    && (1000 <? JS.strLen content))
              "Lacks specific data or statistics" f4 in
  f5.

Definition calcObjectivity (content : string) : string :=
  if (70 <? calcCredibilityScore content)%Z then "High"
  else if (40 <? calcCredibilityScore content)%Z then "Moderate"
  else "Low".

(** [...(c ? [x] : [])] *)
Definition spreadIf (c : bool) (x : string) : list string :=
  if c then [x] else [].

Definition analyzeArticle (content title url : string) : AnalysisResult :=
  {| coreClaims := JS.slice0 4 (potentialClaims content);
     languageAnalysis :=
       {| tone := calcTone content;
          objectivity := calcObjectivity content;
          emotionalLanguage := foundEmotional content;
          hedgingLanguage := foundHedging content |};
     redFlags := calcRedFlags content title;
     verificationQuestions :=
       [ "What are the primary sources for the main claims in this article?";
         "Are there any conflicting reports or alternative perspectives on this topic?";
         "What evidence supports the key assertions made?";
         "Who benefits from this particular framing of the story?" ];
     overallAssessment :=
       {| credibilityScore := calcCredibilityScore content;
          biasIndicators :=
            if 2 <? List.length (foundEmotional content)
            then ["Emotional language"; "Potential sensationalism"]
            else [];
          strengthsWeaknesses :=
            {| strengths :=
                 spreadIf (hasQuotes content) "Includes direct quotes"
                 ++ spreadIf (hasNumbers content) "Contains specific data"
                 ++ spreadIf (hasSourceAttribution content) "Cites sources";
               weaknesses :=
                 spreadIf (2 <? List.length (foundEmotional content))
                          "Uses emotional language"
                 ++ spreadIf (negb (hasSourceAttribution content))
                             "Limited source attribution"
                 ++ spreadIf (List.length (sentences content) <? 10)
                             "Very brief coverage" |} |} |}.

(** The answer of the handler: [NextResponse.json(...)]. *)
Inductive Response :=
| Ok (analysis : AnalysisResult)
| Error (status : Z) (error : string).

(** [POST] on a request whose body is an object with strings for the
    fields it has; a field that is absent is [None].  [handle] below
    is the handler on any request. *)
Definition POST (content title url : option string) : Response :=
  if negb (JS.truthy content) || negb (JS.truthy title) then
    Error 400 "Content and title are required"
  else
    match content, title with
    | Some c, Some t =>
        Ok (analyzeArticle c t (match url with Some u => u | None => "" end))
    | _, _ => Error 500 "Failed to analyze article"
    end.

(** [POST] on any request.  [request] is the outcome of
    [request.json()], [None] when it throws.  Destructuring [null]
    throws.  After the validation, a content that is not a string
    throws at [content.toLowerCase()].  The title is read once, in
    [title.includes("!") || title.toUpperCase() === title]: a title
    that is an array passes when it has the element "!", as a title
    string with a "!" does, and throws otherwise; a number, [true] or
    an object throws.  Whatever is thrown is answered with 500. *)
Definition handle (request : option Json.Value) : Response :=
  match request with
  | None => Error 500 "Failed to analyze article"
  | Some Json.VNull => Error 500 "Failed to analyze article"
  | Some body =>
      let content := Json.property body "content" in
      let title := Json.property body "title" in
      let url := Json.property body "url" in
      if negb (Json.truthy content) || negb (Json.truthy title) then
        Error 400 "Content and title are required"
      else
        match content, title with
        | Some (Json.VString c), Some (Json.VString t) =>
            Ok (analyzeArticle c t (Json.urlText url))
        | Some (Json.VString c), Some (Json.VArray items) =>
            if existsb Json.isBang items
            then Ok (analyzeArticle c "!" (Json.urlText url))
            else Error 500 "Failed to analyze article"
        | _, _ => Error 500 "Failed to analyze article"
        end
  end.

End Analyze.

(** ** The scrape route: [src/unnamed/part_000] *)

Module Scrape.

(** *** [generateAnalysis] *)

Definition words (content : string) : list string :=
  JS.split JS.isSpace (JS.toLowerCase content).

Definition sentences (content : string) : list string :=
  filter (fun s => 0 <? JS.strLen (JS.trim s))
         (JS.split isSentenceEnd content).

Definition emotionalWords : list string :=
  [ "amazing"; "terrible"; "shocking"; "incredible";
    "devastating"; "outrageous"; "fantastic"; "horrible" ].

(** The predicate of the filter of [foundEmotionalWords]. *)
Definition isEmotional (word : string) : bool :=
  JS.some (fun emo => JS.includes word emo) emotionalWords.

Definition foundEmotionalWords (content : string) : list string :=
  filter isEmotional (words content).

Definition hedgingPhrases : list string :=
  [ "might"; "could"; "possibly"; "perhaps";
    "allegedly"; "reportedly"; "seems to"; "appears to" ].

Definition foundHedging (content : string) : list string :=
  filter (fun phrase => JS.includes (JS.toLowerCase content) phrase)
         hedgingPhrases.

Definition calcCoreClaims (content : string) : list string :=
  map JS.trim
      (JS.slice0 4
         (filter (fun s => 20 <? JS.strLen (JS.trim s)) (sentences content))).

Definition calcTone (content : string) : string :=
  let hasEmotionalLanguage := 0 <? List.length (foundEmotionalWords content) in
  let hasHedging := 0 <? List.length (foundHedging content) in
  if hasEmotionalLanguage && negb hasHedging then "emotional"
  else if hasHedging && negb hasEmotionalLanguage then "cautious"
  else if hasEmotionalLanguage && hasHedging then "mixed"
  else "neutral".

Definition calcObjectivity (content : string) : string :=
  if (List.length (foundEmotionalWords content) =? 0)
     && (2 <? List.length (foundHedging content)) then "high"
  else if 3 <? List.length (foundEmotionalWords content) then "low"
  else "moderate".

Definition citesNothing (content : string) : bool :=
  negb (JS.includes content "source")
  && negb (JS.includes content "study")
  && negb (JS.includes content "research").

Definition sensationalTitle (title : string) : bool :=
  JS.includes title "!" || JS.includes title "BREAKING".

Definition calcRedFlags (content title : string) : list string :=
  let f0 := [] in
  let f1 := pushIf (3 <? List.length (foundEmotionalWords content))
              "Excessive use of emotional language" f0 in
  let f2 := pushIf (List.length (sentences content) <? 5)
              "Very short article with limited information" f1 in
  let f3 := pushIf (citesNothing content)
              "Lack of cited sources or references" f2 in
  let f4 := pushIf (sensationalTitle title)
              "Sensationalized headline" f3 in
  f4.

(** [let credibilityScore = 70; ...] up to the clamp. *)
Definition rawScore (content title : string) : Z :=
  (70 - Z.of_nat (List.length (foundEmotionalWords content)) * 5
      + Z.of_nat (List.length (foundHedging content)) * 3
      - Z.of_nat (List.length (calcRedFlags content title)) * 10)%Z.

Definition calcCredibilityScore (content title : string) : Z :=
  clamp (rawScore content title).

Definition calcStrengths (content : string) : list string :=
  let s0 := [] in
  let s1 := pushIf (0 <? List.length (foundHedging content))
              "Uses qualifying language showing appropriate caution" s0 in
  let s2 := pushIf (500 <? JS.strLen content)
              "Provides substantial detail and context" s1 in
  let s3 := pushIf (10 <? List.length (sentences content))
              "Comprehensive coverage of the topic" s2 in
  s3.

Definition calcWeaknesses (content title : string) : list string :=
  let w0 := [] in
  let w1 := pushIf (2 <? List.length (foundEmotionalWords content))
              "Contains emotionally charged language" w0 in
  let w2 := pushIf (0 <? List.length (calcRedFlags content title))
              "Multiple red flags identified in content and presentation" w1 in
  let w3 := pushIf (JS.strLen content <? 300)
              "Limited depth and detail in reporting" w2 in
  w3.

Definition calcBiasIndicators (content title : string) : list string :=
  let b0 := [] in
  let b1 := pushIf (2 <? List.length (foundEmotionalWords content))
              "Emotional Language" b0 in
  let b2 := pushIf (JS.includes title "!") "Sensational Headlines" b1 in
  let b3 := pushIf (2 <? List.length (calcRedFlags content title))
              "Multiple Red Flags" b2 in
  b3.

Definition generateAnalysis (content title url : string) : AnalysisResult :=
  {| coreClaims := calcCoreClaims content;
     languageAnalysis :=
       {| tone := calcTone content;
          objectivity := calcObjectivity content;
          emotionalLanguage := JS.slice0 5 (foundEmotionalWords content);
          hedgingLanguage := JS.slice0 5 (foundHedging content) |};
     redFlags := calcRedFlags content title;
     verificationQuestions :=
       [ "What are the primary sources cited in this article?";
         "Can the main claims be verified through independent sources?";
         "What is the author's expertise and potential bias on this topic?";
         "Are there any conflicting reports or alternative perspectives mentioned?" ];
     overallAssessment :=
       {| credibilityScore := calcCredibilityScore content title;
          biasIndicators := calcBiasIndicators content title;
          strengthsWeaknesses :=
            {| strengths := calcStrengths content;
               weaknesses := calcWeaknesses content title |} |} |}.

(** *** The loaded document

    What the handler asks of cheerio's [$]: for a selector, the text of
    each matched element in document order, and an attribute of the
    first matched element. *)

Record Document := {
  texts : string -> list string;
  attr : string -> string -> option string
}.

(** [$(sel).length] *)
Definition count (doc : Document) (sel : string) : nat :=
  List.length (texts doc sel).

(** [$(sel).text()]: the combined text of the matched elements. *)
Definition text (doc : Document) (sel : string) : string :=
  JS.join "" (texts doc sel).

(** [$(sel).first().text()] *)
Definition firstText (doc : Document) (sel : string) : string :=
  match texts doc sel with
  | t :: _ => t
  | [] => ""
  end.

(** The selector [tag[key="value"]]. *)
Definition attrSel (tag key value : string) : string :=
  (tag ++ "[" ++ key ++ "=" ++ dquote ++ value ++ dquote ++ "]")%string.

Definition extractTitle (doc : Document) : string :=
  match
    JS.orElse
      (JS.orElse
         (JS.orElse (Some (JS.trim (text doc "title")))
                    (Some (JS.trim (firstText doc "h1"))))
         (attr doc (attrSel "meta" "property" "og:title") "content"))
      (Some "Untitled Article")
  with
  | Some t => t
  | None => ""
  end.

Definition extractAuthor (doc : Document) : option string :=
  JS.orElse
    (JS.orElse
       (JS.orElse (attr doc (attrSel "meta" "name" "author") "content")
                  (attr doc (attrSel "meta" "property" "article:author")
                        "content"))
       (Some (JS.trim (firstText doc ".author"))))
    (Some (JS.trim (firstText doc (attrSel "" "rel" "author")))).

Definition extractPublishDate (doc : Document) : option string :=
  JS.orElse
    (JS.orElse
       (JS.orElse
          (attr doc (attrSel "meta" "property" "article:published_time")
                "content")
          (attr doc (attrSel "meta" "name" "date") "content"))
       (attr doc "time" "datetime"))
    (Some (JS.trim (firstText doc ".date"))).

Definition contentSelectors : list string :=
  [ "article"; ".article-content"; ".post-content"; ".entry-content";
    "main"; ".content"; "p" ].

(** The text the loop assigns to [content] for a selector:
    [elements.map((_, el) => $(el).text()).get().join(" ").trim()]. *)
Definition selectorText (doc : Document) (selector : string) : string :=
  JS.trim (JS.join " " (texts doc selector)).

(** [for (const selector of contentSelectors) { ... }], with the
    current value of [content]; leaving the recursion is the [break]. *)
Fixpoint scanSelectors (doc : Document) (selectors : list string)
         (content : string) : string :=
  match selectors with
  | [] => content
  | selector :: rest =>
      if 0 <? count doc selector then
        let content' := selectorText doc selector in
        if 100 <? JS.strLen content' then content'
        else scanSelectors doc rest content'
      else scanSelectors doc rest content
  end.

(** [$("body").text().replace(/\s+/g, " ").trim()] *)
Definition bodyFallback (doc : Document) : string :=
  JS.trim (JS.collapseSpaces (text doc "body")).

(** The value of [content] handed to [generateAnalysis]. *)
Definition extractContent (doc : Document) : string :=
  let content := scanSelectors doc contentSelectors "" in
  if negb (JS.truthy (Some content)) then bodyFallback doc else content.

(** [x || undefined] *)
Definition orUndefined (x : option string) : option string :=
  if JS.truthy x then x else None.

Inductive Response :=
| Ok (title url : string) (author publishDate : option string)
     (content : string) (aiAnalysis : AnalysisResult)
| Error (status : Z) (error : string).

(** [POST] on a request whose body is an object with a string for
    [url], or without it.  [fetch url] is the loaded document of a
    response with an ok status; [None] stands for every way the fetch
    throws (network failure, time-out, status that is not ok).
    [handle] below is the handler on any request. *)
Definition POST (url : option string) (fetch : string -> option Document)
  : Response :=
  match url with
  | Some (String c u) =>
      let url := String c u in
      match fetch url with
      | None => Error 500 "Failed to scrape article"
      | Some doc =>
          let title := extractTitle doc in
          let author := extractAuthor doc in
          let publishDate := extractPublishDate doc in
          let content := extractContent doc in
          let aiAnalysis := generateAnalysis content title url in
          Ok title url (orUndefined author) (orUndefined publishDate)
             (JS.substring0 2000 content) aiAnalysis
      end
  | _ => Error 400 "URL is required"
  end.

(** The answer of the handler to any request; the URL is echoed as it
    was received. *)
Inductive Reply :=
| Answer (title : string) (url : Json.Value)
         (author publishDate : option string)
         (content : string) (aiAnalysis : AnalysisResult)
| Failure (status : Z) (error : string).

(** [POST] on any request.  [request] is the outcome of
    [request.json()], [None] when it throws; destructuring [null]
    throws.  [fetch url] is given the URL as received and is the loaded
    document of a response with an ok status, [None] standing for every
    way the fetch throws.  Whatever is thrown is answered with 500. *)
Definition handle (request : option Json.Value)
           (fetch : Json.Value -> option Document) : Reply :=
  match request with
  | None => Failure 500 "Failed to scrape article"
  | Some Json.VNull => Failure 500 "Failed to scrape article"
  | Some body =>
      match Json.property body "url" with
      | Some url =>
          if negb (Json.truthy (Some url)) then Failure 400 "URL is required"
          else
            match fetch url with
            | None => Failure 500 "Failed to scrape article"
            | Some doc =>
                let title := extractTitle doc in
                let author := extractAuthor doc in
                let publishDate := extractPublishDate doc in
                let content := extractContent doc in
                let aiAnalysis :=
                  generateAnalysis content title (Json.urlText (Some url)) in
                Answer title url (orUndefined author)
                       (orUndefined publishDate)
                       (JS.substring0 2000 content) aiAnalysis
            end
      | None => Failure 400 "URL is required"
      end
  end.

(** The answer of [POST] as a reply. *)
Definition replyOf (r : Response) : Reply :=
  match r with
  | Ok title url author publishDate content aiAnalysis =>
      Answer title (Json.VString url) author publishDate content aiAnalysis
  | Error status error => Failure status error
  end.

End Scrape.

(** ** Specification-side definitions *)

(** The entries of a lexicon that occur at least once in the lowercased
    body, in the order of the lexicon. *)
Definition lexiconHits (lexicon : list string) (body : string) : list string :=
  filter (fun entry => JS.includes (JS.toLowerCase body) entry) lexicon.

(** The text of the sensational-headline flag, the same in both routes. *)
Definition sensationalFlag : string := "Sensationalized headline".

(** The text of the missing-sources flag of the scrape route. *)
Definition noSourcesFlag : string := "Lack of cited sources or references".

(** The last selector of the list that matches an element. *)
Fixpoint lastMatched (doc : Scrape.Document) (selectors : list string)
  : option string :=
  match selectors with
  | [] => None
  | selector :: rest =>
      match lastMatched doc rest with
      | Some s => Some s
      | None => if 0 <? Scrape.count doc selector then Some selector else None
      end
  end.

(** A selector whose joined and trimmed text is longer than 100
    characters. *)
Definition pastThreshold (doc : Scrape.Document) (selector : string) : bool :=
  100 <? JS.strLen (Scrape.selectorText doc selector).

(** Body-text resolution as the scrape handler performs it: the first
    selector past the threshold; failing that, the text of the last
    selector that matched anything, when it is not empty; failing that,
    the visible text of the document, white space collapsed and
    trimmed. *)
Definition resolveBody (doc : Scrape.Document) : string :=
  match find (pastThreshold doc) Scrape.contentSelectors with
  | Some selector => Scrape.selectorText doc selector
  | None =>
      match lastMatched doc Scrape.contentSelectors with
      | Some selector =>
          match Scrape.selectorText doc selector with
          | EmptyString => Scrape.bodyFallback doc
          | text => text
          end
      | None => Scrape.bodyFallback doc
      end
  end.

(** The answer of the scrape handler for a fetched document. *)
Definition scrapeAnswer (doc : Scrape.Document) (url : string)
  : Scrape.Response :=
  let title := Scrape.extractTitle doc in
  let content := Scrape.extractContent doc in
  Scrape.Ok title url
            (Scrape.orUndefined (Scrape.extractAuthor doc))
            (Scrape.orUndefined (Scrape.extractPublishDate doc))
            (JS.substring0 2000 content)
            (Scrape.generateAnalysis content title url).

(** [url] of an analyze request, as [analyzeArticle] receives it. *)
Definition urlArgument (url : option string) : string :=
  match url with
  | Some u => u
  | None => ""
  end.

(** ** Sample documents *)

(** A document without attributes, given by the texts of the elements
    each selector matches. *)
Definition docOf (table : list (string * list string)) : Scrape.Document :=
  {| Scrape.texts := fun selector =>
       match find (fun entry => String.eqb (fst entry) selector) table with
       | Some entry => snd entry
       | None => []
       end;
     Scrape.attr := fun _ _ => None |}.

Fixpoint repeatString (n : nat) (s : string) : string :=
  match n with
  | 0 => EmptyString
  | S n' => (s ++ repeatString n' s)%string
  end.

(** A page with an empty body and nothing else. *)
Definition emptyDoc : Scrape.Document := docOf [ ("body", [""]) ].

(** A short article element on a page with more text around it. *)
Definition teaserDoc : Scrape.Document :=
  docOf [ ("article", ["Short teaser"]);
          ("body", ["Menu Short teaser Footer"]) ].

(** A short article element and two paragraphs that together pass the
    threshold. *)
Definition paragraphDoc : Scrape.Document :=
  docOf [ ("article", ["Intro"]);
          ("p", [ "The council met on Monday and approved the new budget for the coming year.";
                  "Members said the vote followed three months of public hearings." ]);
          ("body", ["Intro and the rest of the page"]) ].

(** A short article element and an empty paragraph: the loop ends with
    the text of the paragraph. *)
Definition emptyParagraphDoc : Scrape.Document :=
  docOf [ ("article", ["Short teaser"]);
          ("p", [""]);
          ("body", ["Menu   Short teaser
  Footer"]) ].

(** An article of 2114 characters whose last sentence carries an
    emotional term. *)
Definition longDoc : Scrape.Document :=
  docOf [ ("article",
           [ (repeatString 300 "filler " ++ "It is amazing.")%string ]) ].

(** ** Sample requests *)

(** The body [{ "url": "http://example.org/" }]. *)
Definition exampleScrapeRequest : Json.Value :=
  Json.VObject [ ("url", Json.VString "http://example.org/") ].

(** The body [{ "content": content, "title": title }]. *)
Definition analyzeRequest (content title : string) : Json.Value :=
  Json.VObject [ ("content", Json.VString content);
                 ("title", Json.VString title) ].

(** ** Vocabulary for the properties of the handlers *)

(** [xs] is [ys] with some elements left out, the order kept. *)
Inductive Subseq {A : Type} : list A -> list A -> Prop :=
| Subseq_nil : Subseq [] []
| Subseq_skip (y : A) (xs ys : list A) : Subseq xs ys -> Subseq xs (y :: ys)
| Subseq_keep (x : A) (xs ys : list A) :
    Subseq xs ys -> Subseq (x :: xs) (x :: ys).

(** The warnings of the analyze route, in the order of its checks. *)
Definition analyzeFlags : list string :=
  [ "Heavy use of emotional language may indicate bias";
    "Limited source attribution - claims not well-supported";
    "Article appears unusually short for the topic";
    "Sensationalized headline";
    "Lacks specific data or statistics" ].

(** The warnings of the scrape route, in the order of its checks. *)
Definition scrapeFlags : list string :=
  [ "Excessive use of emotional language";
    "Very short article with limited information";
    "Lack of cited sources or references";
    "Sensationalized headline" ].

(** No character of the string is in the class. *)
Definition freeOf (class : ascii -> bool) (s : string) : Prop :=
  JS.existsChar class s = false.

(** The string does not start with white space. *)
Definition headNotSpace (s : string) : bool :=
  match s with
  | EmptyString => true
  | String c _ => negb (JS.isSpace c)
  end.

(** A string that [trim] leaves as it is: no white space at either end. *)
Definition trimmed (s : string) : Prop := JS.trim s = s.

(** ** General lemmas *)

Lemma clamp_range (n : Z) : (0 <= clamp n <= 100)%Z.
Proof. unfold clamp. lia. Qed.

Lemma sameUnits_true_iff (a b : list nat) :
  JS.sameUnits a b = true <-> a = b.
Proof.
  unfold JS.sameUnits. destruct (list_eq_dec Nat.eq_dec a b); split;
    intros H; try reflexivity; try assumption; try discriminate H;
    contradiction.
Qed.

Lemma In_pushIf (c : bool) (x y : string) (xs : list string) :
  In x (pushIf c y xs) <-> In x xs \/ (c = true /\ x = y).
Proof.
  unfold pushIf. destruct c.
  - rewrite in_app_iff. simpl. intuition congruence.
  - intuition congruence.
Qed.

Lemma slice0_length {A : Type} (n : nat) (xs : list A) :
  List.length (JS.slice0 n xs) <= n.
Proof. unfold JS.slice0. apply firstn_le_length. Qed.

Lemma slice0_slice0 {A : Type} (n m : nat) (xs : list A) :
  n <= m -> JS.slice0 n (JS.slice0 m xs) = JS.slice0 n xs.
Proof.
  unfold JS.slice0. intros Hnm.
  rewrite firstn_firstn. f_equal. lia.
Qed.

Lemma slice0_map {A B : Type} (f : A -> B) (n : nat) (xs : list A) :
  JS.slice0 n (map f xs) = map f (JS.slice0 n xs).
Proof. unfold JS.slice0. apply firstn_map. Qed.

Lemma slice0_incl {A : Type} (n : nat) (xs : list A) (x : A) :
  In x (JS.slice0 n xs) -> In x xs.
Proof.
  unfold JS.slice0. revert n. induction xs as [|y ys IH]; intros [|n]; simpl;
    try tauto.
  intros [->|H]; [now left | right; eauto].
Qed.

Lemma slice0_NoDup {A : Type} (n : nat) (xs : list A) :
  NoDup xs -> NoDup (JS.slice0 n xs).
Proof.
  unfold JS.slice0. revert n. induction xs as [|y ys IH]; intros [|n] Hnd;
    simpl; try constructor.
  - inversion Hnd; subst. intros Hin. apply slice0_incl in Hin. contradiction.
  - inversion Hnd; subst. now apply IH.
Qed.

Lemma slice0_all {A : Type} (n : nat) (xs : list A) :
  List.length xs <= n -> JS.slice0 n xs = xs.
Proof. unfold JS.slice0. apply firstn_all2. Qed.

Lemma lexiconHits_In (lexicon : list string) (body entry : string) :
  In entry (lexiconHits lexicon body) <->
  In entry lexicon /\ JS.includes (JS.toLowerCase body) entry = true.
Proof. unfold lexiconHits. apply filter_In. Qed.

Lemma lexiconHits_NoDup (lexicon : list string) (body : string) :
  NoDup lexicon -> NoDup (lexiconHits lexicon body).
Proof. unfold lexiconHits. apply NoDup_filter. Qed.

Lemma lexiconHits_length (lexicon : list string) (body : string) :
  List.length (lexiconHits lexicon body) <= List.length lexicon.
Proof. unfold lexiconHits. apply filter_length_le. Qed.

Lemma lexiconHits_all (lexicon : list string) (body : string) :
  (forall entry, In entry lexicon ->
                 JS.includes (JS.toLowerCase body) entry = true) ->
  lexiconHits lexicon body = lexicon.
Proof.
  unfold lexiconHits. induction lexicon as [|e es IH]; simpl; intros H.
  - reflexivity.
  - rewrite (H e) by now left. f_equal. apply IH. intros; apply H. now right.
Qed.

Lemma string_NoDup_dec (xs : list string) :
  {NoDup xs} + {~ NoDup xs}.
Proof.
  induction xs as [|x xs [IH|IH]].
  - left; constructor.
  - destruct (in_dec string_dec x xs) as [Hin|Hin].
    + right. intros H. inversion H; contradiction.
    + left. now constructor.
  - right. intros H. inversion H; contradiction.
Defined.

Lemma analyze_emotionalWords_NoDup : NoDup Analyze.emotionalWords.
Proof.
  destruct (string_NoDup_dec Analyze.emotionalWords) as [H|H] eqn:E;
    [exact H | discriminate E].
Qed.

Lemma analyze_hedgingWords_NoDup : NoDup Analyze.hedgingWords.
Proof.
  destruct (string_NoDup_dec Analyze.hedgingWords) as [H|H] eqn:E;
    [exact H | discriminate E].
Qed.

Lemma scrape_hedgingPhrases_NoDup : NoDup Scrape.hedgingPhrases.
Proof.
  destruct (string_NoDup_dec Scrape.hedgingPhrases) as [H|H] eqn:E;
    [exact H | discriminate E].
Qed.

(** ** The credibility score *)

(** C1. For every body text, title and URL, the credibility score that
    either analyzer returns is the clamp of its base and signed
    adjustments, hence an integer between 0 and 100. *)
Theorem credibilityScore_in_range (content title url : string) :
  let a := credibilityScore
             (overallAssessment (Analyze.analyzeArticle content title url)) in
  let g := credibilityScore
             (overallAssessment (Scrape.generateAnalysis content title url)) in
  (a = clamp (Analyze.rawScore content) /\ 0 <= a <= 100)%Z
  /\ (g = clamp (Scrape.rawScore content title) /\ 0 <= g <= 100)%Z.
Proof.
  cbn [Analyze.analyzeArticle Scrape.generateAnalysis
       overallAssessment credibilityScore].
  cbv zeta. split; (split; [reflexivity | apply clamp_range]).
Qed.

(** ** Red flags *)

Lemma scrape_noSourcesFlag_iff (content title : string) :
  In noSourcesFlag (Scrape.calcRedFlags content title) <->
  Scrape.citesNothing content = true.
Proof.
  unfold Scrape.calcRedFlags, noSourcesFlag.
  repeat rewrite In_pushIf. cbn [In].
  split.
  - intros [[[[[]|[_ H]]|[_ H]]|[H _]]|[_ H]];
      try discriminate H; exact H.
  - intros H. left. right. now split.
Qed.

Lemma scrape_sensationalFlag_iff (content title : string) :
  In sensationalFlag (Scrape.calcRedFlags content title) <->
  Scrape.sensationalTitle title = true.
Proof.
  unfold Scrape.calcRedFlags, sensationalFlag.
  repeat rewrite In_pushIf. cbn [In].
  split.
  - intros [[[[[]|[_ H]]|[_ H]]|[_ H]]|[H _]];
      try discriminate H; exact H.
  - intros H. right. now split.
Qed.

Lemma analyze_sensationalFlag_iff (content title : string) :
  In sensationalFlag (Analyze.calcRedFlags content title) <->
  Analyze.sensationalTitle title = true.
Proof.
  unfold Analyze.calcRedFlags, sensationalFlag.
  repeat rewrite In_pushIf. cbn [In].
  split.
  - intros [[[[[[]|[_ H]]|[_ H]]|[_ H]]|[H _]]|[_ H]];
      try discriminate H; exact H.
  - intros H. left. right. now split.
Qed.

(** C10. In the scrape route the missing-sources flag is decided by a
    search in the body text as it is, not lowercased: the flag is
    raised exactly when the body contains none of the substrings
    "source", "study" and "research" in this lower-case spelling.  So
    a body that has them only with capitals gets the flag. *)
Theorem scrape_noSources_case_sensitive (content title url : string) :
  In noSourcesFlag (redFlags (Scrape.generateAnalysis content title url))
  <-> JS.includes content "source" = false
      /\ JS.includes content "study" = false
      /\ JS.includes content "research" = false.
Proof.
  cbn [Scrape.generateAnalysis redFlags].
  rewrite scrape_noSourcesFlag_iff.
  unfold Scrape.citesNothing.
  destruct (JS.includes content "source"), (JS.includes content "study"),
    (JS.includes content "research"); simpl; split;
    solve [ reflexivity | discriminate | tauto
          | intros [H1 [H2 H3]]; discriminate ].
Qed.

Lemma scrape_noSources_case_sensitive_witness :
  JS.includes (JS.toLowerCase "Source: According to Research, a Study")
              "source" = true
  /\ In noSourcesFlag
        (redFlags (Scrape.generateAnalysis
                     "Source: According to Research, a Study"
                     "Report" "http://example.org/a"))
  /\ ~ In noSourcesFlag
         (redFlags (Scrape.generateAnalysis
                      "A source said so" "Report" "http://example.org/a")).
Proof.
  split; [reflexivity|]. split.
  - apply (scrape_noSources_case_sensitive
             "Source: According to Research, a Study"
             "Report" "http://example.org/a").
    repeat split.
  - intros H.
    apply (scrape_noSources_case_sensitive
             "A source said so" "Report" "http://example.org/a") in H.
    destruct H as [H _]. discriminate H.
Defined.

(** C7, as the code has it.  A title with an exclamation mark is
    flagged by both analyzers; a title equal to its upper-case form is
    flagged by the analyze route, and a title containing "BREAKING" by
    the scrape route; in each case whatever the body is. *)
Theorem sensational_headline_flag (content title url : string) :
  (JS.includes title "!" = true ->
     In sensationalFlag (redFlags (Analyze.analyzeArticle content title url))
     /\ In sensationalFlag
           (redFlags (Scrape.generateAnalysis content title url)))
  /\ (JS.toUpperCase title = JS.codeUnits title ->
        In sensationalFlag
           (redFlags (Analyze.analyzeArticle content title url)))
  /\ (JS.includes title "BREAKING" = true ->
        In sensationalFlag
           (redFlags (Scrape.generateAnalysis content title url))).
Proof.
  cbn [Analyze.analyzeArticle Scrape.generateAnalysis redFlags].
  rewrite analyze_sensationalFlag_iff, scrape_sensationalFlag_iff.
  unfold Analyze.sensationalTitle, Scrape.sensationalTitle.
  split; [|split].
  - intros H. rewrite H. split; reflexivity.
  - intros H. apply orb_true_iff. right. now apply sameUnits_true_iff.
  - intros H. rewrite H. apply orb_true_r.
Qed.

Lemma sensational_headline_flag_witness :
  In sensationalFlag
     (redFlags (Analyze.analyzeArticle "" "BREAKING: Economy COLLAPSES!!" ""))
  /\ In sensationalFlag
        (redFlags (Scrape.generateAnalysis "" "BREAKING: Economy COLLAPSES!!" ""))
  /\ In sensationalFlag (redFlags (Analyze.analyzeArticle "" "NASA" ""))
  /\ In sensationalFlag
        (redFlags (Scrape.generateAnalysis "" "BREAKING news" "")).
Proof.
  destruct (sensational_headline_flag "" "BREAKING: Economy COLLAPSES!!" "")
    as [Hbang _].
  destruct (sensational_headline_flag "" "NASA" "") as [_ [Hupper _]].
  destruct (sensational_headline_flag "" "BREAKING news" "")
    as [_ [_ Hbreaking]].
  repeat split.
  - apply Hbang; reflexivity.
  - apply Hbang; reflexivity.
  - apply Hupper; reflexivity.
  - apply Hbreaking; reflexivity.
Defined.

(** C7 as written fails in both routes: the scrape route does not flag
    an upper-case title, and the analyze route does not flag a title
    that contains "BREAKING". *)
Lemma sensational_headline_counterexample :
  JS.toUpperCase "NASA" = JS.codeUnits "NASA"
  /\ ~ In sensationalFlag
         (redFlags (Scrape.generateAnalysis "Some body text." "NASA" ""))
  /\ JS.includes "BREAKING news" "BREAKING" = true
  /\ ~ In sensationalFlag
         (redFlags (Analyze.analyzeArticle "Some body text." "BREAKING news" "")).
Proof.
  split; [reflexivity|]. split.
  - cbn [Scrape.generateAnalysis redFlags].
    rewrite scrape_sensationalFlag_iff. vm_compute. discriminate.
  - split; [reflexivity|].
    cbn [Analyze.analyzeArticle redFlags].
    rewrite analyze_sensationalFlag_iff. vm_compute. discriminate.
Qed.

(** ** Tone *)

Lemma scrape_tone_cases (content : string) :
  let e := List.length (Scrape.foundEmotionalWords content) in
  let h := List.length (Scrape.foundHedging content) in
  Scrape.calcTone content =
    match e, h with
    | 0, 0 => "neutral"
    | 0, S _ => "cautious"
    | S _, 0 => "emotional"
    | S _, S _ => "mixed"
    end.
Proof.
  unfold Scrape.calcTone.
  destruct (List.length (Scrape.foundEmotionalWords content));
    destruct (List.length (Scrape.foundHedging content)); reflexivity.
Qed.

Lemma analyze_tone_values (content : string) :
  In (Analyze.calcTone content)
     ["emotional"; "cautious"; "analytical"; "neutral"].
Proof.
  unfold Analyze.calcTone.
  destruct (2 <? _); [simpl; tauto|].
  destruct (1 <? _); [simpl; tauto|].
  destruct (_ && _); simpl; tauto.
Qed.

(** C5, as the code has it.  In the scrape route the three rules hold
    as written, on the number of body tokens that contain an emotional
    term and the number of hedging phrases found.  In the analyze route
    more than 2 emotional hits give "emotional" whatever the hedging
    hits are, otherwise more than 1 hedging hit gives "cautious", and
    the tone is never "mixed". *)
Theorem tone_decision_list (content title url : string) :
  (let e := List.length (Scrape.foundEmotionalWords content) in
   let h := List.length (Scrape.foundHedging content) in
   let t := tone (languageAnalysis
                    (Scrape.generateAnalysis content title url)) in
   (2 < e /\ h = 0 -> t = "emotional")
   /\ (0 < h /\ e = 0 -> t = "cautious")
   /\ (0 < e /\ 0 < h -> t = "mixed"))
  /\
  (let e := List.length (Analyze.foundEmotional content) in
   let h := List.length (Analyze.foundHedging content) in
   let t := tone (languageAnalysis
                    (Analyze.analyzeArticle content title url)) in
   (2 < e -> t = "emotional")
   /\ (e <= 2 /\ 1 < h -> t = "cautious")
   /\ t <> "mixed").
Proof.
  cbn [Scrape.generateAnalysis Analyze.analyzeArticle languageAnalysis tone].
  split.
  - cbv zeta. rewrite scrape_tone_cases. cbv zeta.
    destruct (List.length (Scrape.foundEmotionalWords content));
      destruct (List.length (Scrape.foundHedging content));
      repeat split; intros [H1 H2]; solve [reflexivity | lia].
  - cbv zeta. repeat split.
    + intros He. unfold Analyze.calcTone.
      apply Nat.ltb_lt in He. rewrite He. reflexivity.
    + intros [He Hh]. unfold Analyze.calcTone.
      apply Nat.ltb_ge in He. apply Nat.ltb_lt in Hh.
      rewrite He, Hh. reflexivity.
    + intros Hmixed. pose proof (analyze_tone_values content) as Hin.
      rewrite Hmixed in Hin. simpl in Hin.
      repeat (destruct Hin as [Hin|Hin]; [discriminate Hin|]). exact Hin.
Qed.

Lemma tone_decision_list_witness :
  tone (languageAnalysis
          (Scrape.generateAnalysis
             "It is amazing, shocking and terrible" "t" "")) = "emotional"
  /\ tone (languageAnalysis
             (Scrape.generateAnalysis "It might rain" "t" "")) = "cautious"
  /\ tone (languageAnalysis
             (Scrape.generateAnalysis "A shocking rumour, allegedly" "t" ""))
     = "mixed"
  /\ tone (languageAnalysis
             (Analyze.analyzeArticle
                "It is amazing, shocking and terrible, allegedly" "t" ""))
     = "emotional"
  /\ tone (languageAnalysis
             (Analyze.analyzeArticle
                "Allegedly it might rain" "t" "")) = "cautious".
Proof.
  pose proof (tone_decision_list "It is amazing, shocking and terrible" "t" "")
    as [[Hemotional _] _].
  pose proof (tone_decision_list "It might rain" "t" "")
    as [[_ [Hcautious _]] _].
  pose proof (tone_decision_list "A shocking rumour, allegedly" "t" "")
    as [[_ [_ Hmixed]] _].
  pose proof (tone_decision_list
                "It is amazing, shocking and terrible, allegedly" "t" "")
    as [_ [Hemotional' _]].
  pose proof (tone_decision_list "Allegedly it might rain" "t" "")
    as [_ [_ [Hcautious' _]]].
  split; [|split; [|split; [|split]]].
  - apply Hemotional. vm_compute. split; [lia | reflexivity].
  - apply Hcautious. vm_compute. split; [lia | reflexivity].
  - apply Hmixed. vm_compute. split; lia.
  - apply Hemotional'. vm_compute. lia.
  - apply Hcautious'. vm_compute. split; lia.
Defined.

(** C5 as written fails in the analyze route: one hedging hit and no
    emotional hit give "neutral", not "cautious"; one hit of each kind
    gives "neutral", not "mixed". *)
Lemma tone_decision_list_counterexample :
  (List.length (Analyze.foundHedging "It might rain") = 1
   /\ List.length (Analyze.foundEmotional "It might rain") = 0
   /\ tone (languageAnalysis (Analyze.analyzeArticle "It might rain" "t" ""))
      = "neutral")
  /\ (List.length (Analyze.foundHedging "A shocking rumour, allegedly") = 1
      /\ List.length (Analyze.foundEmotional "A shocking rumour, allegedly") = 1
      /\ tone (languageAnalysis
                 (Analyze.analyzeArticle "A shocking rumour, allegedly" "t" ""))
         = "neutral").
Proof. vm_compute. repeat split. Qed.

(** ** Core claims *)

(** C6, as the code has it.  In the analyze route the core claims are
    the first at most 4 sentences (segments of trimmed length above 10)
    that contain an assertive-verb indicator, in document order, each
    trimmed.  In the scrape route they are the first at most 4 segments
    of trimmed length above 20, in document order, each trimmed, whether
    or not they contain an indicator.  Neither list is longer than 4. *)
Theorem coreClaims_first_four (content title url : string) :
  (coreClaims (Analyze.analyzeArticle content title url)
     = map JS.trim
           (firstn 4 (filter Analyze.hasIndicator (Analyze.sentences content)))
   /\ List.length (coreClaims (Analyze.analyzeArticle content title url)) <= 4)
  /\
  (coreClaims (Scrape.generateAnalysis content title url)
     = map JS.trim
           (firstn 4 (filter (fun s => 20 <? JS.strLen (JS.trim s))
                             (Scrape.sentences content)))
   /\ List.length (coreClaims (Scrape.generateAnalysis content title url)) <= 4).
Proof.
  cbn [Analyze.analyzeArticle Scrape.generateAnalysis coreClaims].
  split; split.
  - unfold Analyze.potentialClaims.
    rewrite slice0_map, slice0_slice0 by lia. reflexivity.
  - apply slice0_length.
  - reflexivity.
  - unfold Scrape.calcCoreClaims. rewrite length_map. apply slice0_length.
Qed.

(** C6 as written fails in the scrape route: a sentence without any
    indicator is returned as a core claim. *)
Lemma coreClaims_counterexample :
  Analyze.hasIndicator "The quick brown fox jumped over the fence" = false
  /\ coreClaims (Scrape.generateAnalysis
                   "The quick brown fox jumped over the fence." "t" "")
     = ["The quick brown fox jumped over the fence"].
Proof. vm_compute. split; reflexivity. Qed.

(** ** Matched terms *)

Lemma scrape_isEmotional_spec (word : string) :
  Scrape.isEmotional word = true <->
  exists emo, In emo Scrape.emotionalWords /\ JS.includes word emo = true.
Proof. unfold Scrape.isEmotional, JS.some. apply existsb_exists. Qed.

(** C4, as the code has it.  In the analyze route [emotionalLanguage]
    and [hedgingLanguage] are exactly the entries of the route's
    lexicons (8 and 7 entries) that occur in the lowercased body, in
    lexicon order and without duplicates, and they are not capped: a
    body with all 8 emotional terms yields all 8.  In the scrape route
    [emotionalLanguage] is the first at most 5 white-space separated
    tokens of the lowercased body, in document order, that contain an
    emotional term, and [hedgingLanguage] is the first at most 5
    hedging phrases that occur in the lowercased body, in lexicon order
    and without duplicates: a body with all 8 phrases yields the first 5
    of the lexicon. *)
Theorem matched_terms_shape (content title url : string) :
  let A := languageAnalysis (Analyze.analyzeArticle content title url) in
  let G := languageAnalysis (Scrape.generateAnalysis content title url) in
  (emotionalLanguage A = lexiconHits Analyze.emotionalWords content
   /\ NoDup (emotionalLanguage A)
   /\ List.length (emotionalLanguage A) <= 8
   /\ ((forall e, In e Analyze.emotionalWords ->
                  JS.includes (JS.toLowerCase content) e = true) ->
       emotionalLanguage A = Analyze.emotionalWords))
  /\ (hedgingLanguage A = lexiconHits Analyze.hedgingWords content
      /\ NoDup (hedgingLanguage A)
      /\ List.length (hedgingLanguage A) <= 7)
  /\ (emotionalLanguage G
        = firstn 5 (filter Scrape.isEmotional (Scrape.words content))
      /\ List.length (emotionalLanguage G) <= 5
      /\ (forall w, In w (emotionalLanguage G) ->
            In w (Scrape.words content)
            /\ exists emo, In emo Scrape.emotionalWords
                           /\ JS.includes w emo = true))
  /\ (hedgingLanguage G = firstn 5 (lexiconHits Scrape.hedgingPhrases content)
      /\ NoDup (hedgingLanguage G)
      /\ List.length (hedgingLanguage G) <= 5
      /\ ((forall e, In e Scrape.hedgingPhrases ->
                     JS.includes (JS.toLowerCase content) e = true) ->
          hedgingLanguage G
            = ["might"; "could"; "possibly"; "perhaps"; "allegedly"])).
Proof.
  cbn [Analyze.analyzeArticle Scrape.generateAnalysis languageAnalysis
       emotionalLanguage hedgingLanguage].
  cbv zeta.
  split; [|split; [|split]].
  - split; [reflexivity|]. split; [|split].
    + apply lexiconHits_NoDup, analyze_emotionalWords_NoDup.
    + apply (lexiconHits_length Analyze.emotionalWords).
    + intros Hall. now apply lexiconHits_all.
  - split; [reflexivity|]. split.
    + apply lexiconHits_NoDup, analyze_hedgingWords_NoDup.
    + apply (lexiconHits_length Analyze.hedgingWords).
  - split; [reflexivity|]. split.
    + apply slice0_length.
    + intros w Hin. apply slice0_incl in Hin.
      apply filter_In in Hin. destruct Hin as [Hword Hemo].
      split; [exact Hword|]. now apply scrape_isEmotional_spec.
  - split; [reflexivity|]. split; [|split].
    + apply slice0_NoDup, lexiconHits_NoDup, scrape_hedgingPhrases_NoDup.
    + apply slice0_length.
    + intros Hall. unfold Scrape.foundHedging.
      fold (lexiconHits Scrape.hedgingPhrases content).
      rewrite lexiconHits_all by exact Hall. reflexivity.
Qed.

Lemma matched_terms_shape_witness :
  emotionalLanguage
    (languageAnalysis
       (Analyze.analyzeArticle
          "A stunning, unbelievable, outrageous, terrible, amazing, incredible, devastating and shocking day"
          "t" ""))
  = Analyze.emotionalWords
  /\ hedgingLanguage
       (languageAnalysis
          (Scrape.generateAnalysis
             "It appears to work, seems to hold, reportedly, allegedly; perhaps, possibly, it could, it might"
             "t" ""))
     = ["might"; "could"; "possibly"; "perhaps"; "allegedly"].
Proof.
  split.
  - pose proof (matched_terms_shape
                  "A stunning, unbelievable, outrageous, terrible, amazing, incredible, devastating and shocking day"
                  "t" "") as [[_ [_ [_ Hall]]] _].
    apply Hall. intros e He. simpl in He.
    repeat (destruct He as [<-|He]; [reflexivity|]). contradiction.
  - pose proof (matched_terms_shape
                  "It appears to work, seems to hold, reportedly, allegedly; perhaps, possibly, it could, it might"
                  "t" "") as [_ [_ [_ [_ [_ [_ Hall]]]]]].
    apply Hall. intros e He. simpl in He.
    repeat (destruct He as [<-|He]; [reflexivity|]). contradiction.
Defined.

(** C4 as written fails in both routes.  The analyze route does not cap
    the list: a body with its 8 emotional terms yields 8 entries.  The
    scrape route returns body tokens, in document order: they repeat,
    they need not be lexicon entries, and out of 8 distinct terms the 5
    returned are the first of the body, not of the lexicon. *)
Lemma matched_terms_counterexample :
  List.length
    (emotionalLanguage
       (languageAnalysis
          (Analyze.analyzeArticle
             "shocking devastating incredible amazing terrible outrageous unbelievable stunning"
             "t" ""))) = 8
  /\ emotionalLanguage
       (languageAnalysis
          (Scrape.generateAnalysis "Amazing! Simply amazing!" "t" ""))
     = ["amazing!"; "amazing!"]
  /\ emotionalLanguage
       (languageAnalysis
          (Scrape.generateAnalysis
             "horrible fantastic outrageous devastating incredible shocking terrible amazing"
             "t" ""))
     = ["horrible"; "fantastic"; "outrageous"; "devastating"; "incredible"].
Proof. vm_compute. repeat split. Qed.

(** ** Body-text resolution *)

Section Resolution.

Variable doc : Scrape.Document.

Lemma selectorText_unmatched (selector : string) :
  Scrape.count doc selector = 0 -> Scrape.selectorText doc selector = "".
Proof.
  unfold Scrape.count, Scrape.selectorText. intros H.
  apply length_zero_iff_nil in H. rewrite H. reflexivity.
Qed.

Lemma pastThreshold_matched (selector : string) :
  pastThreshold doc selector = true -> 0 < Scrape.count doc selector.
Proof.
  unfold pastThreshold. intros H.
  destruct (Scrape.count doc selector) eqn:E; [|lia].
  rewrite (selectorText_unmatched selector E) in H. discriminate H.
Qed.

(** The loop, from any value of [content]. *)
Lemma scanSelectors_spec (selectors : list string) (content : string) :
  Scrape.scanSelectors doc selectors content =
    match find (pastThreshold doc) selectors with
    | Some selector => Scrape.selectorText doc selector
    | None =>
        match lastMatched doc selectors with
        | Some selector => Scrape.selectorText doc selector
        | None => content
        end
    end.
Proof.
  revert content.
  induction selectors as [|selector rest IH]; intros content; simpl.
  - reflexivity.
  - destruct (0 <? Scrape.count doc selector) eqn:Hcount.
    + fold (pastThreshold doc selector).
      destruct (pastThreshold doc selector) eqn:Hpast; [reflexivity|].
      rewrite IH.
      destruct (find (pastThreshold doc) rest); [reflexivity|].
      destruct (lastMatched doc rest); reflexivity.
    + destruct (pastThreshold doc selector) eqn:Hpast.
      * apply pastThreshold_matched in Hpast.
        apply Nat.ltb_ge in Hcount. lia.
      * rewrite IH.
        destruct (find (pastThreshold doc) rest); [reflexivity|].
        destruct (lastMatched doc rest); reflexivity.
Qed.

Lemma extractContent_resolveBody :
  Scrape.extractContent doc = resolveBody doc.
Proof.
  unfold Scrape.extractContent, resolveBody.
  rewrite scanSelectors_spec.
  destruct (find (pastThreshold doc) Scrape.contentSelectors)
    as [selector|] eqn:Hfind.
  - apply find_some in Hfind. destruct Hfind as [_ Hpast].
    unfold pastThreshold in Hpast.
    destruct (Scrape.selectorText doc selector); [discriminate Hpast|].
    reflexivity.
  - destruct (lastMatched doc Scrape.contentSelectors) as [selector|].
    + destruct (Scrape.selectorText doc selector); reflexivity.
    + reflexivity.
Qed.

End Resolution.

(** C2, as the code has it.  The selectors are tried in their fixed
    order and the first one whose joined and trimmed text is longer
    than 100 characters gives the body text.  When no selector passes
    the threshold, the body text is the text of the last selector of
    the list that matched an element, if that text is not empty; only
    when no selector matched, or that text is empty, it is the visible
    text of the whole document with white-space runs collapsed to
    single spaces, trimmed. *)
Theorem body_text_resolution (doc : Scrape.Document) :
  Scrape.extractContent doc = resolveBody doc
  /\ (forall before selector after,
        Scrape.contentSelectors = before ++ selector :: after ->
        (forall s, In s before ->
                   JS.strLen (Scrape.selectorText doc s) <= 100) ->
        100 < JS.strLen (Scrape.selectorText doc selector) ->
        Scrape.extractContent doc = Scrape.selectorText doc selector)
  /\ ((forall s, In s Scrape.contentSelectors -> Scrape.count doc s = 0) ->
      Scrape.extractContent doc
        = JS.trim (JS.collapseSpaces (Scrape.text doc "body"))).
Proof.
  split; [apply extractContent_resolveBody|]. split.
  - intros before selector after Hlist Hbefore Hpast.
    rewrite extractContent_resolveBody. unfold resolveBody.
    rewrite Hlist.
    assert (Hfind : find (pastThreshold doc) (before ++ selector :: after)
                    = Some selector).
    { clear Hlist. induction before as [|b bs IH]; simpl.
      - unfold pastThreshold. apply Nat.ltb_lt in Hpast. now rewrite Hpast.
      - assert (Hb : pastThreshold doc b = false).
        { unfold pastThreshold. apply Nat.ltb_ge, Hbefore. now left. }
        rewrite Hb. apply IH. intros s Hs. apply Hbefore. now right. }
    rewrite Hfind. reflexivity.
  - intros Hnone.
    rewrite extractContent_resolveBody. unfold resolveBody.
    assert (Hfind : forall selectors,
               (forall s, In s selectors -> Scrape.count doc s = 0) ->
               find (pastThreshold doc) selectors = None
               /\ lastMatched doc selectors = None).
    { induction selectors as [|s rest IH]; simpl; intros H.
      - now split.
      - destruct IH as [IH1 IH2]; [intros; apply H; now right|].
        assert (Hs : Scrape.count doc s = 0) by (apply H; now left).
        rewrite IH1, IH2, Hs.
        destruct (pastThreshold doc s) eqn:Hpast.
        + apply pastThreshold_matched in Hpast. lia.
        + now split. }
    destruct (Hfind _ Hnone) as [H1 H2]. rewrite H1, H2. reflexivity.
Qed.

Lemma body_text_resolution_witness :
  Scrape.extractContent paragraphDoc
  = "The council met on Monday and approved the new budget for the coming year. Members said the vote followed three months of public hearings."
  /\ Scrape.extractContent emptyDoc = "".
Proof.
  pose proof (body_text_resolution paragraphDoc) as [_ [Hfirst _]].
  pose proof (body_text_resolution emptyDoc) as [_ [_ Hnone]].
  split.
  - apply (Hfirst
             [ "article"; ".article-content"; ".post-content";
               ".entry-content"; "main"; ".content" ]
             "p" []).
    + reflexivity.
    + intros s Hs. simpl in Hs.
      repeat (destruct Hs as [<-|Hs]; [vm_compute; lia|]). contradiction.
    + vm_compute. lia.
  - apply Hnone. intros s Hs. simpl in Hs.
    repeat (destruct Hs as [<-|Hs]; [reflexivity|]). contradiction.
Defined.

(** C2 as written fails when a selector matched without passing the
    threshold: the short text of that selector is kept and the
    document's visible text is not used. *)
Lemma body_text_fallback_counterexample :
  (forall s, In s Scrape.contentSelectors ->
             JS.strLen (Scrape.selectorText teaserDoc s) <= 100)
  /\ Scrape.extractContent teaserDoc = "Short teaser"
  /\ JS.collapseSpaces (Scrape.text teaserDoc "body")
     = "Menu Short teaser Footer"
  /\ Scrape.extractContent teaserDoc
     <> JS.collapseSpaces (Scrape.text teaserDoc "body").
Proof.
  split; [|split; [reflexivity|split; [reflexivity|]]].
  - intros s Hs. simpl in Hs.
    repeat (destruct Hs as [<-|Hs]; [vm_compute; lia|]). contradiction.
  - vm_compute. discriminate.
Qed.

(** ** The handlers *)

Lemma substring0_length (n : nat) (s : string) :
  JS.strLen (JS.substring0 n s) = Nat.min n (JS.strLen s).
Proof.
  unfold JS.substring0, JS.strLen. revert n.
  induction s as [|c r IH]; intros [|n]; simpl; try reflexivity.
  now rewrite IH.
Qed.

Lemma substring0_prefix (n : nat) (s : string) :
  String.prefix (JS.substring0 n s) s = true.
Proof.
  unfold JS.substring0. revert n.
  induction s as [|c r IH]; intros [|n]; simpl; try reflexivity.
  destruct (ascii_dec c c) as [_|Hne]; [apply IH | now elim Hne].
Qed.

Lemma scrape_POST_ok (u : string) (fetch : string -> option Scrape.Document)
      (doc : Scrape.Document) :
  u <> "" -> fetch u = Some doc ->
  Scrape.POST (Some u) fetch = scrapeAnswer doc u.
Proof.
  intros Hu Hfetch. destruct u as [|c r]; [now elim Hu|].
  unfold Scrape.POST. rewrite Hfetch. reflexivity.
Qed.

Lemma truthy_Some (s : string) : JS.truthy (Some s) = true <-> s <> "".
Proof. destruct s; simpl; split; congruence. Qed.

Lemma analyze_POST_rejects (content title url : option string) :
  Analyze.POST content title url
    = Analyze.Error 400 "Content and title are required"
  <-> JS.truthy content = false \/ JS.truthy title = false.
Proof.
  unfold Analyze.POST.
  destruct content as [[|c cs]|], title as [[|t ts]|]; simpl;
    split; intros H; try reflexivity; try tauto; try discriminate H.
  destruct H as [H|H]; discriminate H.
Qed.

(** C8. A scrape request whose fetch succeeds is answered with the
    analysis of the whole extracted body text, and with a [content]
    field that is the prefix of that text of at most 2000 characters. *)
Theorem scrape_analyzes_untruncated
        (url : string) (fetch : string -> option Scrape.Document)
        (doc : Scrape.Document) :
  url <> "" -> fetch url = Some doc ->
  exists title author publishDate shown,
    Scrape.POST (Some url) fetch
      = Scrape.Ok title url author publishDate shown
                  (Scrape.generateAnalysis (Scrape.extractContent doc)
                                           title url)
    /\ shown = JS.substring0 2000 (Scrape.extractContent doc)
    /\ String.prefix shown (Scrape.extractContent doc) = true
    /\ JS.strLen shown = Nat.min 2000 (JS.strLen (Scrape.extractContent doc)).
Proof.
  intros Hurl Hfetch.
  rewrite (scrape_POST_ok url fetch doc Hurl Hfetch).
  unfold scrapeAnswer.
  do 4 eexists. split; [reflexivity|]. split; [reflexivity|]. split.
  - apply substring0_prefix.
  - apply substring0_length.
Qed.

Lemma scrape_analyzes_untruncated_witness :
  exists title author publishDate shown,
    Scrape.POST (Some "http://example.org/long") (fun _ => Some longDoc)
      = Scrape.Ok title "http://example.org/long" author publishDate shown
                  (Scrape.generateAnalysis (Scrape.extractContent longDoc)
                                           title "http://example.org/long")
    /\ shown = JS.substring0 2000 (Scrape.extractContent longDoc)
    /\ String.prefix shown (Scrape.extractContent longDoc) = true
    /\ JS.strLen shown
       = Nat.min 2000 (JS.strLen (Scrape.extractContent longDoc)).
Proof.
  apply (scrape_analyzes_untruncated
           "http://example.org/long" (fun _ => Some longDoc) longDoc).
  - discriminate.
  - reflexivity.
Defined.

Lemma scrape_handle_answer (body url : Json.Value)
      (fetch : Json.Value -> option Scrape.Document) (doc : Scrape.Document) :
  Json.property body "url" = Some url ->
  Json.truthy (Some url) = true ->
  fetch url = Some doc ->
  Scrape.handle (Some body) fetch
  = Scrape.Answer (Scrape.extractTitle doc) url
                  (Scrape.orUndefined (Scrape.extractAuthor doc))
                  (Scrape.orUndefined (Scrape.extractPublishDate doc))
                  (JS.substring0 2000 (Scrape.extractContent doc))
                  (Scrape.generateAnalysis (Scrape.extractContent doc)
                                           (Scrape.extractTitle doc)
                                           (Json.urlText (Some url))).
Proof.
  intros Hurl Htruthy Hfetch.
  destruct body; try discriminate Hurl.
  unfold Scrape.handle. rewrite Hurl, Htruthy, Hfetch. reflexivity.
Qed.

Lemma analyze_handle_rejects (body : Json.Value) :
  body <> Json.VNull ->
  Json.truthy (Json.property body "content") = false
  \/ Json.truthy (Json.property body "title") = false ->
  Analyze.handle (Some body) = Analyze.Error 400 "Content and title are required".
Proof.
  intros Hbody Hfalsy.
  assert (Htest : negb (Json.truthy (Json.property body "content"))
                  || negb (Json.truthy (Json.property body "title")) = true).
  { destruct Hfalsy as [H|H]; rewrite H; [reflexivity | apply orb_true_r]. }
  unfold Analyze.handle.
  destruct body; try (now elim Hbody); rewrite Htest; reflexivity.
Qed.

Lemma analyze_handle_strings (body : Json.Value) (content title : string) :
  Json.property body "content" = Some (Json.VString content) ->
  Json.property body "title" = Some (Json.VString title) ->
  content <> "" -> title <> "" ->
  Analyze.handle (Some body)
  = Analyze.Ok (Analyze.analyzeArticle content title
                  (Json.urlText (Json.property body "url"))).
Proof.
  intros Hc Ht Hcne Htne.
  destruct body; try discriminate Hc.
  unfold Analyze.handle. rewrite Hc, Ht.
  destruct content as [|c cs]; [now elim Hcne|].
  destruct title as [|t ts]; [now elim Htne|].
  reflexivity.
Qed.

(** C3, as the code has it.  Neither analyzer has a failure case.  The
    scrape handler analyses whatever body text was extracted, the empty
    one included, and returns the complete result.  An empty or missing
    body text is rejected only by the request validation of the analyze
    handler, with status 400 and no result, and that validation rejects
    an empty or missing title as well; a request with a content and a
    title that are strings and not empty is answered with the
    analyzer's result. *)
Theorem analysis_has_no_failure :
  (forall (body url : Json.Value)
          (fetch : Json.Value -> option Scrape.Document)
          (doc : Scrape.Document),
      Json.property body "url" = Some url ->
      Json.truthy (Some url) = true ->
      fetch url = Some doc ->
      exists title author publishDate shown,
        Scrape.handle (Some body) fetch
          = Scrape.Answer title url author publishDate shown
              (Scrape.generateAnalysis (Scrape.extractContent doc)
                                       title (Json.urlText (Some url))))
  /\ (forall body : Json.Value,
        body <> Json.VNull ->
        Json.truthy (Json.property body "content") = false
        \/ Json.truthy (Json.property body "title") = false ->
        Analyze.handle (Some body)
          = Analyze.Error 400 "Content and title are required")
  /\ (forall (body : Json.Value) (content title : string),
        Json.property body "content" = Some (Json.VString content) ->
        Json.property body "title" = Some (Json.VString title) ->
        content <> "" -> title <> "" ->
        Analyze.handle (Some body)
          = Analyze.Ok (Analyze.analyzeArticle content title
                          (Json.urlText (Json.property body "url")))).
Proof.
  split; [|split].
  - intros body url fetch doc Hurl Htruthy Hfetch.
    rewrite (scrape_handle_answer body url fetch doc Hurl Htruthy Hfetch).
    do 4 eexists. reflexivity.
  - apply analyze_handle_rejects.
  - apply analyze_handle_strings.
Qed.

Lemma analysis_has_no_failure_witness :
  (exists title author publishDate shown,
      Scrape.handle (Some exampleScrapeRequest) (fun _ => Some emptyDoc)
        = Scrape.Answer title (Json.VString "http://example.org/")
            author publishDate shown
            (Scrape.generateAnalysis (Scrape.extractContent emptyDoc)
                                     title "http://example.org/"))
  /\ Analyze.handle (Some (analyzeRequest "" "Weather"))
     = Analyze.Error 400 "Content and title are required"
  /\ Analyze.handle (Some (analyzeRequest "It might rain." "Weather"))
     = Analyze.Ok (Analyze.analyzeArticle "It might rain." "Weather" "").
Proof.
  pose proof analysis_has_no_failure as [Hscrape [Hreject Hanalyze]].
  split; [|split].
  - apply (Hscrape exampleScrapeRequest (Json.VString "http://example.org/")
                   (fun _ => Some emptyDoc) emptyDoc); reflexivity.
  - apply (Hreject (analyzeRequest "" "Weather")).
    + discriminate.
    + left. reflexivity.
  - apply (Hanalyze (analyzeRequest "It might rain." "Weather")
                    "It might rain." "Weather");
      solve [reflexivity | discriminate].
Defined.

(** C3 as written fails in both directions: the scrape handler returns
    a complete analysis of an empty body text, and the analyze handler
    rejects a request whose body text is not empty when the title is. *)
Lemma analysis_failure_counterexample :
  Scrape.extractContent emptyDoc = ""
  /\ Scrape.handle (Some exampleScrapeRequest) (fun _ => Some emptyDoc)
     = Scrape.Answer "Untitled Article" (Json.VString "http://example.org/")
                     None None ""
                     (Scrape.generateAnalysis
                        "" "Untitled Article" "http://example.org/")
  /\ Analyze.handle (Some (analyzeRequest "It might rain." ""))
     = Analyze.Error 400 "Content and title are required".
Proof. split; [reflexivity|]. split; reflexivity. Qed.

(** ** The URL argument *)

Lemma analyzeArticle_ignores_url (content title url url' : string) :
  Analyze.analyzeArticle content title url
  = Analyze.analyzeArticle content title url'.
Proof. reflexivity. Qed.

Lemma generateAnalysis_ignores_url (content title url url' : string) :
  Scrape.generateAnalysis content title url
  = Scrape.generateAnalysis content title url'.
Proof. reflexivity. Qed.

(** ** Checks on concrete inputs *)

Example split_white_space :
  JS.split JS.isSpace "a  b" = ["a"; "b"]
  /\ JS.split JS.isSpace " a " = [""; "a"; ""]
  /\ JS.split JS.isSpace "" = [""].
Proof. repeat split. Qed.

Example split_sentences :
  JS.split isSentenceEnd "One. Two?! Three" = ["One"; " Two"; " Three"]
  /\ JS.split isSentenceEnd "Done." = ["Done"; ""].
Proof. repeat split. Qed.

Example trim_both_ends : JS.trim "  a b  " = "a b".
Proof. reflexivity. Qed.

Example case_mapping :
  JS.toLowerCase "Shocking NEWS 1!" = "shocking news 1!"
  /\ JS.toUpperCase "Nasa-x 1!" = JS.codeUnits "NASA-X 1!".
Proof. split; reflexivity. Qed.

Example includes_inside_word : JS.includes "this" "is" = true.
Proof. reflexivity. Qed.

Example collapse_then_trim :
  JS.trim (JS.collapseSpaces "  a 	  b ") = "a b".
Proof. reflexivity. Qed.

(** The score of the scrape route reaches both ends of its range. *)
Example scrape_score_floor :
  Scrape.rawScore
    "amazing amazing amazing amazing amazing amazing amazing amazing amazing amazing amazing amazing"
    "Wow!" = (-30)%Z
  /\ credibilityScore
       (overallAssessment
          (Scrape.generateAnalysis
             "amazing amazing amazing amazing amazing amazing amazing amazing amazing amazing amazing amazing"
             "Wow!" "")) = 0%Z.
Proof. vm_compute. split; reflexivity. Qed.

(** Only the paragraphs pass the threshold: their text is chosen, not
    the shorter text of the article element before them. *)
Example paragraphs_chosen :
  Scrape.selectorText paragraphDoc "article" = "Intro"
  /\ Scrape.extractContent paragraphDoc
     = Scrape.selectorText paragraphDoc "p".
Proof. split; reflexivity. Qed.

(** The loop keeps the text of the last selector that matched: an
    empty paragraph after a short article element leads to the
    document's visible text. *)
Example empty_last_match_falls_back :
  Scrape.extractContent emptyParagraphDoc = "Menu Short teaser Footer".
Proof. reflexivity. Qed.

(** The analysis of a long text is not that of its first 2000
    characters. *)
Example truncation_would_matter :
  JS.strLen (Scrape.extractContent longDoc) = 2114
  /\ emotionalLanguage
       (languageAnalysis
          (Scrape.generateAnalysis (Scrape.extractContent longDoc) "t" ""))
     = ["amazing."]
  /\ emotionalLanguage
       (languageAnalysis
          (Scrape.generateAnalysis
             (JS.substring0 2000 (Scrape.extractContent longDoc)) "t" ""))
     = [].
Proof. vm_compute. repeat split. Qed.

(** ** Properties of the string operations the handlers rely on *)

Lemma lowerChar_idempotent (c : ascii) :
  JS.lowerChar (JS.lowerChar c) = JS.lowerChar c.
Proof. destruct c as [[] [] [] [] [] [] [] []]; reflexivity. Qed.

Lemma lowerChar_asciiUpperChar (c : ascii) :
  JS.lowerChar (JS.asciiUpperChar c) = JS.lowerChar c.
Proof. destruct c as [[] [] [] [] [] [] [] []]; reflexivity. Qed.

Lemma lowerChar_asciiLowerChar (c : ascii) :
  JS.lowerChar (JS.asciiLowerChar c) = JS.lowerChar c.
Proof. destruct c as [[] [] [] [] [] [] [] []]; reflexivity. Qed.

Lemma lowerChar_not_upper (c : ascii) : JS.isUpper (JS.lowerChar c) = false.
Proof. destruct c as [[] [] [] [] [] [] [] []]; reflexivity. Qed.

Lemma toLowerCase_idempotent (s : string) :
  JS.toLowerCase (JS.toLowerCase s) = JS.toLowerCase s.
Proof.
  unfold JS.toLowerCase. induction s as [|c r IH]; simpl.
  - reflexivity.
  - now rewrite lowerChar_idempotent, IH.
Qed.

Lemma toLowerCase_asciiUpperCase (s : string) :
  JS.toLowerCase (JS.asciiUpperCase s) = JS.toLowerCase s.
Proof.
  unfold JS.toLowerCase, JS.asciiUpperCase. induction s as [|c r IH]; simpl.
  - reflexivity.
  - now rewrite lowerChar_asciiUpperChar, IH.
Qed.

Lemma toLowerCase_asciiLowerCase (s : string) :
  JS.toLowerCase (JS.asciiLowerCase s) = JS.toLowerCase s.
Proof.
  unfold JS.toLowerCase, JS.asciiLowerCase. induction s as [|c r IH]; simpl.
  - reflexivity.
  - now rewrite lowerChar_asciiLowerChar, IH.
Qed.

Lemma toLowerCase_no_upper (s : string) :
  freeOf JS.isUpper (JS.toLowerCase s).
Proof.
  unfold freeOf, JS.toLowerCase. induction s as [|c r IH]; simpl.
  - reflexivity.
  - now rewrite lowerChar_not_upper, IH.
Qed.

Lemma trimStart_head (s : string) : headNotSpace (JS.trimStart s) = true.
Proof.
  induction s as [|c r IH]; simpl; [reflexivity|].
  destruct (JS.isSpace c) eqn:Hc; [exact IH|]. simpl. now rewrite Hc.
Qed.

Lemma trimStart_fixed (s : string) :
  headNotSpace s = true -> JS.trimStart s = s.
Proof.
  destruct s as [|c r]; simpl; [reflexivity|].
  destruct (JS.isSpace c); [discriminate | reflexivity].
Qed.

Lemma trimEnd_head (s : string) :
  headNotSpace s = true -> headNotSpace (JS.trimEnd s) = true.
Proof.
  destruct s as [|c r]; simpl; [reflexivity|].
  intros Hc. destruct (JS.trimEnd r).
  - destruct (JS.isSpace c) eqn:Hspace; [discriminate Hc|].
    simpl. now rewrite Hspace.
  - exact Hc.
Qed.

Lemma trimEnd_idempotent (s : string) :
  JS.trimEnd (JS.trimEnd s) = JS.trimEnd s.
Proof.
  induction s as [|c r IH]; simpl; [reflexivity|].
  destruct (JS.trimEnd r) as [|d r'] eqn:Hr.
  - destruct (JS.isSpace c) eqn:Hc; simpl; [reflexivity|].
    now rewrite Hc.
  - change (JS.trimEnd (String c (String d r'))) with
      (match JS.trimEnd (String d r') with
       | EmptyString =>
           if JS.isSpace c then EmptyString else String c EmptyString
       | x => String c x
       end).
    rewrite IH. reflexivity.
Qed.

Lemma trim_trimmed (s : string) : trimmed (JS.trim s).
Proof.
  unfold trimmed, JS.trim.
  rewrite (trimStart_fixed (JS.trimEnd (JS.trimStart s))).
  - apply trimEnd_idempotent.
  - apply trimEnd_head, trimStart_head.
Qed.

Lemma trimStart_freeOf (class : ascii -> bool) (s : string) :
  freeOf class s -> freeOf class (JS.trimStart s).
Proof.
  unfold freeOf. induction s as [|c r IH]; simpl; [trivial|].
  intros H. apply orb_false_iff in H. destruct H as [Hc Hr].
  destruct (JS.isSpace c); [now apply IH|]. simpl. now rewrite Hc, Hr.
Qed.

Lemma trimEnd_freeOf (class : ascii -> bool) (s : string) :
  freeOf class s -> freeOf class (JS.trimEnd s).
Proof.
  unfold freeOf. induction s as [|c r IH]; simpl; [trivial|].
  intros H. apply orb_false_iff in H. destruct H as [Hc Hr].
  specialize (IH Hr). destruct (JS.trimEnd r) as [|d r'].
  - destruct (JS.isSpace c); simpl; [reflexivity|]. now rewrite Hc.
  - change (JS.existsChar class (String c (String d r')))
      with (class c || JS.existsChar class (String d r')).
    now rewrite Hc, IH.
Qed.

Lemma trim_freeOf (class : ascii -> bool) (s : string) :
  freeOf class s -> freeOf class (JS.trim s).
Proof. intros H. unfold JS.trim. now apply trimEnd_freeOf, trimStart_freeOf. Qed.

Lemma splitRuns_freeOf (sep : ascii -> bool) (inRun : bool) (s : string) :
  Forall (freeOf sep) (JS.splitRuns sep inRun s).
Proof.
  revert inRun. induction s as [|c r IH]; intros inRun; simpl.
  - constructor; [reflexivity | constructor].
  - destruct (sep c) eqn:Hc.
    + destruct inRun; [apply IH|]. constructor; [reflexivity | apply IH].
    + specialize (IH false).
      destruct (JS.splitRuns sep false r) as [|piece pieces].
      * constructor; [|constructor]. unfold freeOf. simpl. now rewrite Hc.
      * inversion IH as [|? ? Hpiece Hpieces]; subst.
        constructor; [|exact Hpieces].
        unfold freeOf in *. simpl. now rewrite Hc, Hpiece.
Qed.

Lemma split_freeOf (sep : ascii -> bool) (s : string) :
  Forall (freeOf sep) (JS.split sep s).
Proof. apply splitRuns_freeOf. Qed.

Lemma slice0_nil_iff {A : Type} (n : nat) (xs : list A) :
  JS.slice0 (S n) xs = [] <-> xs = [].
Proof. destruct xs; simpl; split; congruence. Qed.

Lemma slice0_Forall {A : Type} (P : A -> Prop) (n : nat) (xs : list A) :
  Forall P xs -> Forall P (JS.slice0 n xs).
Proof.
  intros H. apply Forall_forall. intros x Hx.
  apply slice0_incl in Hx. revert x Hx. now apply Forall_forall.
Qed.

Lemma Subseq_length {A : Type} (xs ys : list A) :
  Subseq xs ys -> List.length xs <= List.length ys.
Proof. induction 1; simpl; lia. Qed.

Lemma Subseq_In {A : Type} (xs ys : list A) (x : A) :
  Subseq xs ys -> In x xs -> In x ys.
Proof.
  induction 1 as [|y xs ys _ IH|y xs ys _ IH]; simpl; intros Hin.
  - exact Hin.
  - right. now apply IH.
  - destruct Hin as [->|Hin]; [now left | right; now apply IH].
Qed.

Lemma Subseq_NoDup {A : Type} (xs ys : list A) :
  Subseq xs ys -> NoDup ys -> NoDup xs.
Proof.
  induction 1 as [|y xs ys _ IH|y xs ys Hsub IH]; intros Hnd.
  - constructor.
  - inversion Hnd; subst. now apply IH.
  - inversion Hnd as [|? ? Hnotin Hrest]; subst. constructor.
    + intros Hin. apply Hnotin. now apply (Subseq_In xs ys).
    + now apply IH.
Qed.

(** ** Further properties of the analyze route *)

Lemma analyze_rawScore_band (content : string) :
  (15 <= Analyze.rawScore content <= 95)%Z
  /\ (Analyze.rawScore content mod 5 = 0)%Z.
Proof.
  unfold Analyze.rawScore.
  destruct (Analyze.hasQuotes content), (Analyze.hasNumbers content),
    (Analyze.hasSourceAttribution content),
    (3 <? List.length (Analyze.foundEmotional content)),
    (List.length (Analyze.sentences content) <? 10);
    cbv zeta; split; solve [lia | reflexivity].
Qed.

Lemma analyze_score_is_raw (content : string) :
  Analyze.calcCredibilityScore content = Analyze.rawScore content.
Proof.
  unfold Analyze.calcCredibilityScore, clamp.
  pose proof (analyze_rawScore_band content) as [Hband _]. lia.
Qed.

(** X1. The score of the analyze route never reaches the clamp: it is the
    raw score, a multiple of 5 between 15 and 95. *)
Theorem analyze_score_band (content title url : string) :
  let score := credibilityScore
                 (overallAssessment
                    (Analyze.analyzeArticle content title url)) in
  score = Analyze.rawScore content
  /\ (15 <= score <= 95)%Z
  /\ (score mod 5 = 0)%Z.
Proof.
  cbn [Analyze.analyzeArticle overallAssessment credibilityScore]. cbv zeta.
  rewrite analyze_score_is_raw.
  pose proof (analyze_rawScore_band content) as [Hband Hmod]. auto.
Qed.

(** X2. The objectivity label of the analyze route follows the score:
    "High" from 75 on, "Low" up to 40, "Moderate" from 45 to 70. *)
Theorem analyze_objectivity_bands (content title url : string) :
  let r := Analyze.analyzeArticle content title url in
  let score := credibilityScore (overallAssessment r) in
  let label := objectivity (languageAnalysis r) in
  (label = "High" <-> (75 <= score)%Z)
  /\ (label = "Moderate" <-> (45 <= score <= 70)%Z)
  /\ (label = "Low" <-> (score <= 40)%Z).
Proof.
  cbn [Analyze.analyzeArticle overallAssessment credibilityScore
       languageAnalysis objectivity]. cbv zeta.
  unfold Analyze.calcObjectivity.
  pose proof (analyze_rawScore_band content) as [Hband Hmod].
  rewrite analyze_score_is_raw.
  assert (Hfive : exists k, Analyze.rawScore content = (5 * k)%Z).
  { exists (Analyze.rawScore content / 5)%Z.
    apply Z.div_exact in Hmod; lia. }
  destruct Hfive as [k Hk]. rewrite Hk in *. clear Hk Hmod.
  destruct (70 <? 5 * k)%Z eqn:H70.
  - apply Z.ltb_lt in H70.
    (split; [|split]); split; intros H;
      solve [discriminate H | reflexivity | lia].
  - apply Z.ltb_ge in H70. destruct (40 <? 5 * k)%Z eqn:H40.
    + apply Z.ltb_lt in H40.
      (split; [|split]); split; intros H;
      solve [discriminate H | reflexivity | lia].
    + apply Z.ltb_ge in H40.
      (split; [|split]); split; intros H;
      solve [discriminate H | reflexivity | lia].
Qed.

Ltac subseq :=
  solve [ apply Subseq_nil
        | apply Subseq_keep; subseq
        | apply Subseq_skip; subseq ].

Lemma analyze_redFlags_Subseq (content title : string) :
  Subseq (Analyze.calcRedFlags content title) analyzeFlags.
Proof.
  unfold Analyze.calcRedFlags, analyzeFlags, pushIf.
  destruct (3 <? List.length (Analyze.foundEmotional content)),
    (negb (Analyze.hasSourceAttribution content)),
    (List.length (Analyze.sentences content) <? 10),
    (Analyze.sensationalTitle title),
    (negb (Analyze.hasNumbers content) && (1000 <? JS.strLen content));
    cbn [app]; subseq.
Qed.

Lemma scrape_redFlags_Subseq (content title : string) :
  Subseq (Scrape.calcRedFlags content title) scrapeFlags.
Proof.
  unfold Scrape.calcRedFlags, scrapeFlags, pushIf.
  destruct (3 <? List.length (Scrape.foundEmotionalWords content)),
    (List.length (Scrape.sentences content) <? 5),
    (Scrape.citesNothing content),
    (Scrape.sensationalTitle title);
    cbn [app]; subseq.
Qed.

Lemma analyzeFlags_NoDup : NoDup analyzeFlags.
Proof.
  destruct (string_NoDup_dec analyzeFlags) as [H|H] eqn:E;
    [exact H | discriminate E].
Qed.

Lemma scrapeFlags_NoDup : NoDup scrapeFlags.
Proof.
  destruct (string_NoDup_dec scrapeFlags) as [H|H] eqn:E;
    [exact H | discriminate E].
Qed.

(** X3. In both routes the red flags are some of the route's fixed
    warnings, each at most once and in the order of the checks: at
    most 5 in the analyze route, at most 4 in the scrape route. *)
Theorem redFlags_in_check_order (content title url : string) :
  let a := redFlags (Analyze.analyzeArticle content title url) in
  let g := redFlags (Scrape.generateAnalysis content title url) in
  (Subseq a analyzeFlags /\ NoDup a /\ List.length a <= 5)
  /\ (Subseq g scrapeFlags /\ NoDup g /\ List.length g <= 4).
Proof.
  cbn [Analyze.analyzeArticle Scrape.generateAnalysis redFlags]. cbv zeta.
  pose proof (analyze_redFlags_Subseq content title) as Ha.
  pose proof (scrape_redFlags_Subseq content title) as Hg.
  split; (split; [assumption|split]).
  - exact (Subseq_NoDup _ _ Ha analyzeFlags_NoDup).
  - exact (Subseq_length _ _ Ha).
  - exact (Subseq_NoDup _ _ Hg scrapeFlags_NoDup).
  - exact (Subseq_length _ _ Hg).
Qed.

Lemma In_spreadIf (c : bool) (x y : string) :
  In x (Analyze.spreadIf c y) <-> c = true /\ x = y.
Proof.
  unfold Analyze.spreadIf. destruct c; simpl; intuition congruence.
Qed.

(** X4. In the analyze route the emotional tone, the bias indicators and
    the emotional-language weakness go together: each is present
    exactly when more than 2 emotional terms were found.  The
    heavy-emotional-language flag implies all three. *)
Theorem analyze_emotional_signals_agree (content title url : string) :
  let r := Analyze.analyzeArticle content title url in
  let emotional := tone (languageAnalysis r) = "emotional" in
  (emotional <-> 2 < List.length (emotionalLanguage (languageAnalysis r)))
  /\ (emotional <->
      biasIndicators (overallAssessment r)
      = ["Emotional language"; "Potential sensationalism"])
  /\ (~ emotional <-> biasIndicators (overallAssessment r) = [])
  /\ (emotional <->
      In "Uses emotional language"
         (weaknesses (strengthsWeaknesses (overallAssessment r))))
  /\ (In "Heavy use of emotional language may indicate bias" (redFlags r)
      -> emotional).
Proof.
  cbn [Analyze.analyzeArticle languageAnalysis tone emotionalLanguage
       overallAssessment biasIndicators strengthsWeaknesses weaknesses
       redFlags]. cbv zeta.
  assert (Htone : Analyze.calcTone content = "emotional"
                  <-> 2 < List.length (Analyze.foundEmotional content)).
  { unfold Analyze.calcTone.
    destruct (2 <? List.length (Analyze.foundEmotional content)) eqn:He.
    - apply Nat.ltb_lt in He. tauto.
    - apply Nat.ltb_ge in He.
      destruct (1 <? _); [|destruct (_ && _)];
        (split; [discriminate | lia]). }
  rewrite Htone.
  split; [reflexivity|].
  destruct (2 <? List.length (Analyze.foundEmotional content)) eqn:He.
  - apply Nat.ltb_lt in He.
    split; [tauto|]. split; [split; [tauto | discriminate]|]. split.
    + split; [intros _; simpl; tauto | tauto].
    + tauto.
  - apply Nat.ltb_ge in He.
    split; [split; [lia | discriminate]|].
    split; [split; [reflexivity | lia]|]. split.
    + split; [lia|]. simpl.
      unfold Analyze.spreadIf.
      destruct (negb _), (_ <? 10); simpl;
        intros H; repeat (destruct H as [H|H]; [discriminate H|]);
        contradiction.
    + unfold Analyze.calcRedFlags. repeat rewrite In_pushIf. cbn [In].
      intros [[[[[[]|[H _]]|[_ H]]|[_ H]]|[_ H]]|[_ H]];
        try discriminate H.
      apply Nat.ltb_lt in H. lia.
Qed.

Ltac decide_membership :=
  cbn [app In negb andb];
  split; intros H;
  solve [ reflexivity | discriminate H | tauto
        | intuition (try discriminate; try congruence) ].

Lemma analyze_limitedFlag_iff (content title : string) :
  In "Limited source attribution - claims not well-supported"
     (Analyze.calcRedFlags content title)
  <-> Analyze.hasSourceAttribution content = false.
Proof.
  unfold Analyze.calcRedFlags, pushIf.
  destruct (Analyze.hasSourceAttribution content),
    (3 <? List.length (Analyze.foundEmotional content)),
    (List.length (Analyze.sentences content) <? 10),
    (Analyze.sensationalTitle title),
    (negb (Analyze.hasNumbers content) && (1000 <? JS.strLen content));
    decide_membership.
Qed.

Lemma analyze_lacksDataFlag_iff (content title : string) :
  In "Lacks specific data or statistics" (Analyze.calcRedFlags content title)
  <-> Analyze.hasNumbers content = false /\ 1000 < JS.strLen content.
Proof.
  unfold Analyze.calcRedFlags, pushIf.
  rewrite <- Nat.ltb_lt.
  destruct (Analyze.hasNumbers content), (1000 <? JS.strLen content),
    (Analyze.hasSourceAttribution content),
    (3 <? List.length (Analyze.foundEmotional content)),
    (List.length (Analyze.sentences content) <? 10),
    (Analyze.sensationalTitle title);
    decide_membership.
Qed.

Lemma analyze_strengths_iff (content : string) (x : string) :
  In x (Analyze.spreadIf (Analyze.hasQuotes content) "Includes direct quotes"
        ++ Analyze.spreadIf (Analyze.hasNumbers content)
                            "Contains specific data"
        ++ Analyze.spreadIf (Analyze.hasSourceAttribution content)
                            "Cites sources")
  <-> (Analyze.hasQuotes content = true /\ x = "Includes direct quotes")
      \/ (Analyze.hasNumbers content = true /\ x = "Contains specific data")
      \/ (Analyze.hasSourceAttribution content = true /\ x = "Cites sources").
Proof. repeat rewrite in_app_iff. repeat rewrite In_spreadIf. reflexivity. Qed.

Lemma analyze_limitedWeakness_iff (content : string) :
  In "Limited source attribution"
     (Analyze.spreadIf (2 <? List.length (Analyze.foundEmotional content))
                       "Uses emotional language"
      ++ Analyze.spreadIf (negb (Analyze.hasSourceAttribution content))
                          "Limited source attribution"
      ++ Analyze.spreadIf (List.length (Analyze.sentences content) <? 10)
                          "Very brief coverage")
  <-> Analyze.hasSourceAttribution content = false.
Proof.
  unfold Analyze.spreadIf.
  destruct (Analyze.hasSourceAttribution content),
    (2 <? List.length (Analyze.foundEmotional content)),
    (List.length (Analyze.sentences content) <? 10);
    decide_membership.
Qed.

(** X5. In the analyze route source attribution is reported one way or the
    other: the "Cites sources" strength is present exactly when the
    limited-attribution flag and weakness are absent.  Likewise the
    lacks-data flag excludes the "Contains specific data" strength and
    appears only for bodies longer than 1000 characters. *)
Theorem analyze_attribution_consistent (content title url : string) :
  let r := Analyze.analyzeArticle content title url in
  let cites :=
    In "Cites sources" (strengths (strengthsWeaknesses (overallAssessment r)))
  in
  (cites <->
   ~ In "Limited source attribution - claims not well-supported" (redFlags r))
  /\ (cites <->
      ~ In "Limited source attribution"
           (weaknesses (strengthsWeaknesses (overallAssessment r))))
  /\ (In "Lacks specific data or statistics" (redFlags r) ->
      ~ In "Contains specific data"
           (strengths (strengthsWeaknesses (overallAssessment r)))
      /\ 1000 < JS.strLen content).
Proof.
  cbn [Analyze.analyzeArticle overallAssessment strengthsWeaknesses
       strengths weaknesses redFlags]. cbv zeta.
  rewrite analyze_limitedFlag_iff, analyze_limitedWeakness_iff,
    analyze_lacksDataFlag_iff.
  repeat rewrite analyze_strengths_iff.
  destruct (Analyze.hasSourceAttribution content),
    (Analyze.hasNumbers content);
    (split; [|split]);
    intuition (try discriminate; try congruence).
Qed.

Lemma analyze_shortFlag_iff (content title : string) :
  In "Article appears unusually short for the topic"
     (Analyze.calcRedFlags content title)
  <-> List.length (Analyze.sentences content) < 10.
Proof.
  unfold Analyze.calcRedFlags, pushIf.
  rewrite <- Nat.ltb_lt.
  destruct (List.length (Analyze.sentences content) <? 10),
    (Analyze.hasSourceAttribution content),
    (3 <? List.length (Analyze.foundEmotional content)),
    (Analyze.sensationalTitle title),
    (negb (Analyze.hasNumbers content) && (1000 <? JS.strLen content));
    decide_membership.
Qed.

(** X6. In the analyze route a body of fewer than 10 sentences without
    quotes, digits or attribution scores 35, or 15 when more than 3
    emotional terms are found; its objectivity is "Low", no strength is
    listed, and both the limited-attribution and the short-article
    flags are raised. *)
Theorem analyze_unsupported_short_article (content title url : string) :
  Analyze.hasQuotes content = false ->
  Analyze.hasNumbers content = false ->
  Analyze.hasSourceAttribution content = false ->
  List.length (Analyze.sentences content) < 10 ->
  let r := Analyze.analyzeArticle content title url in
  (credibilityScore (overallAssessment r) = 35%Z
   \/ credibilityScore (overallAssessment r) = 15%Z)
  /\ objectivity (languageAnalysis r) = "Low"
  /\ strengths (strengthsWeaknesses (overallAssessment r)) = []
  /\ In "Limited source attribution - claims not well-supported" (redFlags r)
  /\ In "Article appears unusually short for the topic" (redFlags r).
Proof.
  intros Hq Hn Ha Hs.
  cbn [Analyze.analyzeArticle overallAssessment credibilityScore
       languageAnalysis objectivity strengthsWeaknesses strengths redFlags].
  cbv zeta.
  rewrite analyze_limitedFlag_iff, analyze_shortFlag_iff.
  unfold Analyze.calcObjectivity, Analyze.calcCredibilityScore,
    Analyze.rawScore.
  rewrite Hq, Hn, Ha. apply Nat.ltb_lt in Hs. rewrite Hs.
  apply Nat.ltb_lt in Hs.
  destruct (3 <? List.length (Analyze.foundEmotional content));
    cbv zeta; simpl; auto 10.
Qed.

Lemma analyze_unsupported_short_article_witness :
  credibilityScore
    (overallAssessment (Analyze.analyzeArticle "It might rain" "Weather" ""))
  = 35%Z
  /\ objectivity
       (languageAnalysis (Analyze.analyzeArticle "It might rain" "Weather" ""))
     = "Low".
Proof.
  pose proof (analyze_unsupported_short_article "It might rain" "Weather" "")
    as H.
  cbv zeta in H.
  destruct H as [Hscore [Hlabel _]].
  - reflexivity.
  - reflexivity.
  - reflexivity.
  - vm_compute. lia.
  - split; [|exact Hlabel].
    destruct Hscore as [Hscore|Hscore]; [exact Hscore|].
    vm_compute in Hscore. discriminate Hscore.
Defined.

(** ** Further properties of the scrape analyzer *)

Lemma scrape_foundHedging_bound (content : string) :
  List.length (Scrape.foundHedging content) <= 8.
Proof.
  unfold Scrape.foundHedging.
  apply (filter_length_le _ Scrape.hedgingPhrases).
Qed.

(** X7. The score of the scrape route never reaches the upper clamp: it is
    the raw score when that is positive and 0 otherwise, and it is at
    most 94 (the base of 70 and 8 hedging phrases at 3 points). *)
Theorem scrape_score_ceiling (content title url : string) :
  let score := credibilityScore
                 (overallAssessment
                    (Scrape.generateAnalysis content title url)) in
  score = Z.max 0 (Scrape.rawScore content title)
  /\ (score <= 94)%Z
  /\ (score
      <= 70 + 3 * Z.of_nat (List.length (Scrape.foundHedging content))
         - 10 * Z.of_nat (List.length
                            (redFlags
                               (Scrape.generateAnalysis content title url))))%Z.
Proof.
  cbn [Scrape.generateAnalysis overallAssessment credibilityScore redFlags].
  cbv zeta.
  unfold Scrape.calcCredibilityScore, clamp, Scrape.rawScore.
  pose proof (scrape_foundHedging_bound content) as Hh.
  pose proof (Subseq_length _ _ (scrape_redFlags_Subseq content title)) as Hk.
  simpl in Hk.
  split; [|split]; lia.
Qed.

Lemma scrape_tone_from_lists (content : string) :
  Scrape.calcTone content =
    match JS.slice0 5 (Scrape.foundEmotionalWords content),
          JS.slice0 5 (Scrape.foundHedging content) with
    | [], [] => "neutral"
    | [], _ :: _ => "cautious"
    | _ :: _, [] => "emotional"
    | _ :: _, _ :: _ => "mixed"
    end.
Proof.
  rewrite scrape_tone_cases. cbv zeta.
  destruct (Scrape.foundEmotionalWords content),
    (Scrape.foundHedging content); reflexivity.
Qed.

(** X8. In the scrape route the tone can be read off the two returned
    lists: "neutral" when both are empty, "cautious" when only hedging
    phrases were found, "emotional" when only emotional tokens were
    found, "mixed" when both were. *)
Theorem scrape_tone_matches_lists (content title url : string) :
  let la := languageAnalysis (Scrape.generateAnalysis content title url) in
  tone la =
    match emotionalLanguage la, hedgingLanguage la with
    | [], [] => "neutral"
    | [], _ :: _ => "cautious"
    | _ :: _, [] => "emotional"
    | _ :: _, _ :: _ => "mixed"
    end.
Proof.
  cbn [Scrape.generateAnalysis languageAnalysis tone emotionalLanguage
       hedgingLanguage]. cbv zeta.
  apply scrape_tone_from_lists.
Qed.

Lemma scrape_excessiveFlag_iff (content title : string) :
  In "Excessive use of emotional language" (Scrape.calcRedFlags content title)
  <-> 3 < List.length (Scrape.foundEmotionalWords content).
Proof.
  unfold Scrape.calcRedFlags, pushIf. rewrite <- Nat.ltb_lt.
  destruct (3 <? List.length (Scrape.foundEmotionalWords content)),
    (List.length (Scrape.sentences content) <? 5),
    (Scrape.citesNothing content), (Scrape.sensationalTitle title);
    decide_membership.
Qed.

Lemma scrape_objectivity_cases (content : string) :
  let e := List.length (Scrape.foundEmotionalWords content) in
  let h := List.length (Scrape.foundHedging content) in
  (Scrape.calcObjectivity content = "high" <-> e = 0 /\ 2 < h)
  /\ (Scrape.calcObjectivity content = "low" <-> 3 < e).
Proof.
  cbv zeta. unfold Scrape.calcObjectivity.
  destruct (List.length (Scrape.foundEmotionalWords content) =? 0) eqn:He0;
    [apply Nat.eqb_eq in He0 | apply Nat.eqb_neq in He0];
    (destruct (2 <? List.length (Scrape.foundHedging content)) eqn:Hh;
     [apply Nat.ltb_lt in Hh | apply Nat.ltb_ge in Hh]);
    (destruct (3 <? List.length (Scrape.foundEmotionalWords content)) eqn:He3;
     [apply Nat.ltb_lt in He3 | apply Nat.ltb_ge in He3]);
    cbn [andb]; split; split; intros H;
    solve [ reflexivity | discriminate H | lia ].
Qed.

(** X9. In the scrape route the objectivity label constrains the other
    fields.  "high" comes only with the "cautious" tone and an empty
    [emotionalLanguage].  "low" comes only with the "emotional" or
    "mixed" tone, and always together with the excessive-emotion flag,
    the "Emotional Language" bias indicator and the
    emotionally-charged weakness. *)
Theorem scrape_objectivity_implies (content title url : string) :
  let r := Scrape.generateAnalysis content title url in
  (objectivity (languageAnalysis r) = "high" ->
     tone (languageAnalysis r) = "cautious"
     /\ emotionalLanguage (languageAnalysis r) = [])
  /\ (objectivity (languageAnalysis r) = "low" ->
        (tone (languageAnalysis r) = "emotional"
         \/ tone (languageAnalysis r) = "mixed")
        /\ In "Excessive use of emotional language" (redFlags r)
        /\ In "Emotional Language" (biasIndicators (overallAssessment r))
        /\ In "Contains emotionally charged language"
              (weaknesses (strengthsWeaknesses (overallAssessment r)))).
Proof.
  cbn [Scrape.generateAnalysis languageAnalysis objectivity tone
       emotionalLanguage redFlags overallAssessment biasIndicators
       strengthsWeaknesses weaknesses]. cbv zeta.
  pose proof (scrape_objectivity_cases content) as [Hhigh Hlow].
  cbv zeta in Hhigh, Hlow.
  rewrite Hhigh, Hlow, scrape_excessiveFlag_iff, scrape_tone_cases.
  cbv zeta. split.
  - intros [He Hh]. rewrite He.
    apply length_zero_iff_nil in He. rewrite He.
    destruct (List.length (Scrape.foundHedging content)); [lia|].
    split; reflexivity.
  - intros He. split; [|split; [exact He|]].
    + destruct (List.length (Scrape.foundEmotionalWords content)); [lia|].
      destruct (List.length (Scrape.foundHedging content)); tauto.
    + unfold Scrape.calcBiasIndicators, Scrape.calcWeaknesses.
      repeat rewrite In_pushIf. cbn [In].
      assert (H2 : (2 <? List.length (Scrape.foundEmotionalWords content))
                   = true) by (apply Nat.ltb_lt; lia).
      rewrite H2. tauto.
Qed.

Lemma scrape_objectivity_implies_witness :
  tone (languageAnalysis
          (Scrape.generateAnalysis
             "It might work, it could help, perhaps." "t" "")) = "cautious"
  /\ In "Excessive use of emotional language"
        (redFlags
           (Scrape.generateAnalysis
              "An amazing, shocking, terrible, horrible day" "t" "")).
Proof.
  pose proof (scrape_objectivity_implies
                "It might work, it could help, perhaps." "t" "")
    as [Hhigh _].
  pose proof (scrape_objectivity_implies
                "An amazing, shocking, terrible, horrible day" "t" "")
    as [_ Hlow].
  destruct Hhigh as [Htone _]; [reflexivity|].
  destruct Hlow as [_ [Hflag _]]; [reflexivity|].
  split; [exact Htone | exact Hflag].
Defined.

(** X10. In the scrape route the red flags are echoed in the other lists:
    the red-flag weakness is listed exactly when some flag was raised,
    the "Multiple Red Flags" indicator exactly when more than 2 were,
    and the "Sensational Headlines" indicator only together with the
    sensationalized-headline flag. *)
Theorem scrape_flags_echoed (content title url : string) :
  let r := Scrape.generateAnalysis content title url in
  (In "Multiple red flags identified in content and presentation"
      (weaknesses (strengthsWeaknesses (overallAssessment r)))
   <-> redFlags r <> [])
  /\ (In "Multiple Red Flags" (biasIndicators (overallAssessment r))
      <-> 2 < List.length (redFlags r))
  /\ (In "Sensational Headlines" (biasIndicators (overallAssessment r))
      -> In sensationalFlag (redFlags r)).
Proof.
  cbn [Scrape.generateAnalysis redFlags overallAssessment biasIndicators
       strengthsWeaknesses weaknesses]. cbv zeta.
  rewrite scrape_sensationalFlag_iff.
  unfold Scrape.calcWeaknesses, Scrape.calcBiasIndicators,
    Scrape.sensationalTitle.
  repeat rewrite In_pushIf. cbn [In].
  split; [|split].
  - destruct (Scrape.calcRedFlags content title) as [|f fs]; simpl.
    + split; [|congruence].
      intros [[[[]|[_ H]]|[H _]]|[_ H]]; discriminate H.
    + split; [discriminate|]. intros _. left. right. now split.
  - rewrite <- Nat.ltb_lt.
    destruct (2 <? List.length (Scrape.calcRedFlags content title)).
    + split; [reflexivity|]. intros _. right. now split.
    + split; [|discriminate].
      intros [[[[]|[_ H]]|[_ H]]|[H _]]; discriminate H.
  - intros [[[[]|[_ H]]|[H _]]|[_ H]]; try discriminate H.
    rewrite H. reflexivity.
Qed.

(** ** Case of the body text *)

(** X11. The lexicon matching of both routes does not depend on the case of
    the body: turning its letters a to z into capitals, its letters A
    to Z into small letters, or lower-casing it as the handlers do,
    leaves the matched emotional and hedging terms unchanged, and with
    them the tone and the objectivity of the scrape route. *)
Theorem lexicon_matching_ignores_case (content title url : string) :
  let a := fun body =>
             languageAnalysis (Analyze.analyzeArticle body title url) in
  let g := fun body =>
             languageAnalysis (Scrape.generateAnalysis body title url) in
  (forall body', body' = JS.asciiUpperCase content
                 \/ body' = JS.asciiLowerCase content
                 \/ body' = JS.toLowerCase content ->
     emotionalLanguage (a body') = emotionalLanguage (a content)
     /\ hedgingLanguage (a body') = hedgingLanguage (a content)
     /\ emotionalLanguage (g body') = emotionalLanguage (g content)
     /\ hedgingLanguage (g body') = hedgingLanguage (g content)
     /\ tone (g body') = tone (g content)
     /\ objectivity (g body') = objectivity (g content)).
Proof.
  cbv zeta. intros body' Hbody.
  assert (Hlower : JS.toLowerCase body' = JS.toLowerCase content).
  { destruct Hbody as [->|[->| ->]].
    - apply toLowerCase_asciiUpperCase.
    - apply toLowerCase_asciiLowerCase.
    - apply toLowerCase_idempotent. }
  cbn [Analyze.analyzeArticle Scrape.generateAnalysis languageAnalysis
       emotionalLanguage hedgingLanguage tone objectivity].
  unfold Scrape.calcTone, Scrape.calcObjectivity,
    Analyze.foundEmotional, Analyze.foundHedging,
    Scrape.foundEmotionalWords, Scrape.foundHedging, Scrape.words.
  rewrite Hlower. repeat split; reflexivity.
Qed.

Lemma lexicon_matching_ignores_case_witness :
  emotionalLanguage
    (languageAnalysis
       (Analyze.analyzeArticle "A SHOCKING RUMOUR, ALLEGEDLY" "t" ""))
  = emotionalLanguage
      (languageAnalysis
         (Analyze.analyzeArticle "A Shocking rumour, Allegedly" "t" "")).
Proof.
  pose proof (lexicon_matching_ignores_case
                "A Shocking rumour, Allegedly" "t" ""
                "A SHOCKING RUMOUR, ALLEGEDLY") as H.
  cbv zeta in H. destruct H as [Hemotional _].
  - left. reflexivity.
  - exact Hemotional.
Defined.

(** ** Shape of the returned strings *)

Lemma sentence_pieces_shape (content : string) (bound : nat) (s : string) :
  In s (filter (fun s => bound <? JS.strLen (JS.trim s))
               (JS.split isSentenceEnd content)) ->
  bound < JS.strLen (JS.trim s)
  /\ freeOf isSentenceEnd (JS.trim s)
  /\ trimmed (JS.trim s).
Proof.
  intros Hin. apply filter_In in Hin. destruct Hin as [Hpiece Hlen].
  apply Nat.ltb_lt in Hlen. split; [exact Hlen|]. split.
  - apply trim_freeOf.
    pose proof (split_freeOf isSentenceEnd content) as Hall.
    rewrite Forall_forall in Hall. now apply Hall.
  - apply trim_trimmed.
Qed.

(** X12. Every core claim of either route is a piece of the body without
    any of the characters ".", "!" and "?", has no white space at its
    ends, and is longer than 10 characters in the analyze route and
    longer than 20 in the scrape route. *)
Theorem coreClaims_shape (content title url : string) :
  Forall (fun claim => 10 < JS.strLen claim
                       /\ freeOf isSentenceEnd claim
                       /\ trimmed claim)
         (coreClaims (Analyze.analyzeArticle content title url))
  /\ Forall (fun claim => 20 < JS.strLen claim
                          /\ freeOf isSentenceEnd claim
                          /\ trimmed claim)
            (coreClaims (Scrape.generateAnalysis content title url)).
Proof.
  cbn [Analyze.analyzeArticle Scrape.generateAnalysis coreClaims].
  split.
  - apply slice0_Forall. unfold Analyze.potentialClaims.
    apply Forall_map, slice0_Forall, Forall_forall.
    intros s Hs. apply filter_In in Hs. destruct Hs as [Hs _].
    exact (sentence_pieces_shape content 10 s Hs).
  - unfold Scrape.calcCoreClaims.
    apply Forall_map, slice0_Forall, Forall_forall.
    intros s Hs. apply filter_In in Hs. destruct Hs as [Hs Hlen].
    unfold Scrape.sentences in Hs. apply filter_In in Hs.
    destruct Hs as [Hpiece _].
    apply (sentence_pieces_shape content 20 s).
    apply filter_In. now split.
Qed.

Lemma splitRuns_keeps_freeOf (class sep : ascii -> bool) (inRun : bool)
      (s : string) :
  freeOf class s -> Forall (freeOf class) (JS.splitRuns sep inRun s).
Proof.
  unfold freeOf. revert inRun.
  induction s as [|c r IH]; intros inRun H; simpl.
  - constructor; [reflexivity | constructor].
  - simpl in H. apply orb_false_iff in H. destruct H as [Hc Hr].
    destruct (sep c).
    + destruct inRun; [now apply IH|].
      constructor; [reflexivity | now apply IH].
    + specialize (IH false Hr).
      destruct (JS.splitRuns sep false r) as [|piece pieces].
      * constructor; [|constructor]. simpl. now rewrite Hc.
      * inversion IH as [|? ? Hpiece Hpieces]; subst.
        constructor; [|exact Hpieces]. simpl. now rewrite Hc, Hpiece.
Qed.

(** X13. Every entry of [emotionalLanguage] in the scrape route is a token
    of the lowercased body: it has no white space and no upper-case
    letter, and it contains a term of the emotional lexicon. *)
Theorem scrape_emotional_tokens_shape (content title url : string) :
  Forall (fun token =>
            freeOf JS.isSpace token
            /\ freeOf JS.isUpper token
            /\ (exists emo, In emo Scrape.emotionalWords
                            /\ JS.includes token emo = true)
            /\ In token (JS.split JS.isSpace (JS.toLowerCase content)))
         (emotionalLanguage
            (languageAnalysis (Scrape.generateAnalysis content title url))).
Proof.
  cbn [Scrape.generateAnalysis languageAnalysis emotionalLanguage].
  apply slice0_Forall, Forall_forall. intros token Hin.
  unfold Scrape.foundEmotionalWords in Hin. apply filter_In in Hin.
  destruct Hin as [Hword Hemo]. split; [|split; [|split]].
  - pose proof (split_freeOf JS.isSpace (JS.toLowerCase content)) as Hall.
    rewrite Forall_forall in Hall. now apply Hall.
  - pose proof (splitRuns_keeps_freeOf JS.isUpper JS.isSpace false
                  (JS.toLowerCase content) (toLowerCase_no_upper content))
      as Hall.
    rewrite Forall_forall in Hall. now apply Hall.
  - now apply scrape_isEmotional_spec.
  - exact Hword.
Qed.

(** ** Further properties of the scrape handler *)

Lemma orElse_truthy_r (a b : option string) :
  JS.truthy b = true -> JS.truthy (JS.orElse a b) = true.
Proof.
  intros Hb. unfold JS.orElse. destruct (JS.truthy a) eqn:Ha; assumption.
Qed.

Lemma orElse_truthy_l (a b : option string) :
  JS.truthy a = true -> JS.orElse a b = a.
Proof. intros Ha. unfold JS.orElse. now rewrite Ha. Qed.

Lemma orElse_falsy_l (a b : option string) :
  JS.truthy a = false -> JS.orElse a b = b.
Proof. intros Ha. unfold JS.orElse. now rewrite Ha. Qed.

Lemma extractTitle_not_empty (doc : Scrape.Document) :
  Scrape.extractTitle doc <> "".
Proof.
  unfold Scrape.extractTitle.
  match goal with
  | |- match ?x with _ => _ end <> _ =>
      assert (H : JS.truthy x = true)
        by (apply orElse_truthy_r; reflexivity);
      destruct x as [[|c t]|]; try discriminate H
  end.
  discriminate.
Qed.

(** X14. The title handed to the analyzer is never empty.  It is the
    trimmed text of the [title] elements when that is not empty; else
    the trimmed text of the first [h1] when that is not empty; else the
    [og:title] meta content when present and not empty; else the
    literal "Untitled Article". *)
Theorem title_resolution (doc : Scrape.Document) :
  let fromTitle := JS.trim (Scrape.text doc "title") in
  let fromH1 := JS.trim (Scrape.firstText doc "h1") in
  let fromMeta :=
    Scrape.attr doc (Scrape.attrSel "meta" "property" "og:title") "content" in
  Scrape.extractTitle doc <> ""
  /\ (fromTitle <> "" -> Scrape.extractTitle doc = fromTitle)
  /\ (fromTitle = "" -> fromH1 <> "" -> Scrape.extractTitle doc = fromH1)
  /\ (fromTitle = "" -> fromH1 = "" ->
      forall t, fromMeta = Some t -> t <> "" -> Scrape.extractTitle doc = t)
  /\ (fromTitle = "" -> fromH1 = "" -> JS.truthy fromMeta = false ->
      Scrape.extractTitle doc = "Untitled Article").
Proof.
  cbv zeta. split; [apply extractTitle_not_empty|].
  unfold Scrape.extractTitle.
  destruct (JS.trim (Scrape.text doc "title")) as [|c1 t1].
  - destruct (JS.trim (Scrape.firstText doc "h1")) as [|c2 t2].
    + destruct (Scrape.attr doc (Scrape.attrSel "meta" "property" "og:title")
                            "content") as [[|c3 t3]|]; simpl.
      * split; [congruence|]. split; [congruence|]. split; [|reflexivity].
        intros _ _ t Ht Hne. congruence.
      * split; [congruence|]. split; [congruence|]. split.
        -- intros _ _ t Ht Hne. congruence.
        -- intros _ _ H. discriminate H.
      * split; [congruence|]. split; [congruence|]. split; [|reflexivity].
        intros _ _ t Ht. discriminate Ht.
    + simpl. split; [congruence|]. split; [reflexivity|].
      split; [|intros _ H; discriminate H].
      intros _ H. discriminate H.
  - simpl. split; [reflexivity|]. split; [intros H; discriminate H|].
    split; intros H; discriminate H.
Qed.

Lemma title_resolution_witness :
  Scrape.extractTitle emptyDoc = "Untitled Article"
  /\ Scrape.extractTitle
       (docOf [ ("title", ["  Council approves budget "]);
                ("h1", ["Budget"]) ])
     = "Council approves budget".
Proof.
  pose proof (title_resolution emptyDoc) as [_ [_ [_ [_ Hnone]]]].
  pose proof (title_resolution
                (docOf [ ("title", ["  Council approves budget "]);
                         ("h1", ["Budget"]) ])) as [_ [Htitle _]].
  split.
  - apply Hnone; reflexivity.
  - apply Htitle. discriminate.
Defined.

Lemma resolveBody_trimmed (doc : Scrape.Document) : trimmed (resolveBody doc).
Proof.
  unfold resolveBody, Scrape.bodyFallback.
  destruct (find (pastThreshold doc) Scrape.contentSelectors) as [s|].
  - apply trim_trimmed.
  - destruct (lastMatched doc Scrape.contentSelectors) as [s|].
    + destruct (Scrape.selectorText doc s) as [|c t] eqn:E.
      * apply trim_trimmed.
      * rewrite <- E. apply trim_trimmed.
    + apply trim_trimmed.
Qed.

(** X15. The body text handed to the analyzer has no white space at its
    ends, whichever way it was resolved; and it is longer than 100
    characters whenever some selector of the list passes the
    threshold. *)
Theorem body_text_trimmed (doc : Scrape.Document) :
  trimmed (Scrape.extractContent doc)
  /\ headNotSpace (Scrape.extractContent doc) = true
  /\ ((exists selector, In selector Scrape.contentSelectors
                        /\ 100 < JS.strLen (Scrape.selectorText doc selector))
      -> 100 < JS.strLen (Scrape.extractContent doc)).
Proof.
  rewrite extractContent_resolveBody.
  pose proof (resolveBody_trimmed doc) as Htrim.
  split; [exact Htrim|]. split.
  - unfold trimmed, JS.trim in Htrim. rewrite <- Htrim.
    apply trimEnd_head, trimStart_head.
  - intros [selector [Hin Hlen]]. unfold resolveBody.
    destruct (find (pastThreshold doc) Scrape.contentSelectors)
      as [s|] eqn:Hfind.
    + apply find_some in Hfind. destruct Hfind as [_ Hpast].
      unfold pastThreshold in Hpast. now apply Nat.ltb_lt in Hpast.
    + apply (find_none _ _ Hfind) in Hin.
      unfold pastThreshold in Hin. apply Nat.ltb_ge in Hin. lia.
Qed.

Lemma body_text_trimmed_witness :
  100 < JS.strLen (Scrape.extractContent paragraphDoc).
Proof.
  apply (body_text_trimmed paragraphDoc).
  exists "p". split.
  - simpl. tauto.
  - vm_compute. lia.
Defined.

Lemma substring0_all (n : nat) (s : string) :
  JS.strLen s <= n -> JS.substring0 n s = s.
Proof.
  unfold JS.substring0, JS.strLen. revert n.
  induction s as [|c r IH]; intros [|n] H; simpl in *; try reflexivity;
    try lia.
  f_equal. apply IH. lia.
Qed.

Lemma orUndefined_not_empty (x : option string) :
  Scrape.orUndefined x <> Some "".
Proof.
  unfold Scrape.orUndefined. destruct x as [[|c t]|]; simpl; discriminate.
Qed.

(** X16. The scrape handler answers 400 exactly when the request body
    was parsed, is not [null], and has no [url] or a falsy one,
    whatever the network would do.  It answers 500 exactly when the
    body cannot be parsed, or is [null], or has a truthy [url] for
    which the fetch fails.  It has no other error answer. *)
Theorem scrape_handle_errors (request : option Json.Value)
        (fetch : Json.Value -> option Scrape.Document) :
  (Scrape.handle request fetch = Scrape.Failure 400 "URL is required"
   <-> exists body, request = Some body /\ body <> Json.VNull
                    /\ Json.truthy (Json.property body "url") = false)
  /\ (Scrape.handle request fetch
        = Scrape.Failure 500 "Failed to scrape article"
      <-> request = None
          \/ request = Some Json.VNull
          \/ exists body url,
               request = Some body
               /\ Json.property body "url" = Some url
               /\ Json.truthy (Some url) = true
               /\ fetch url = None)
  /\ (forall status message,
        Scrape.handle request fetch = Scrape.Failure status message ->
        (status = 400 /\ message = "URL is required")
        \/ (status = 500 /\ message = "Failed to scrape article"))%Z.
Proof.
  destruct request as [body|].
  - destruct (Json.property body "url") as [url|] eqn:Hurl.
    + destruct body; try discriminate Hurl.
      unfold Scrape.handle. rewrite Hurl.
      destruct (Json.truthy (Some url)) eqn:Htruthy; simpl.
      * destruct (fetch url) as [doc|] eqn:Hfetch.
        -- split; [|split].
           ++ split; [discriminate|].
              intros [body [Hb [_ Hf]]]. injection Hb as <-.
              rewrite Hurl in Hf. congruence.
           ++ split; [discriminate|].
              intros [H|[H|[body [u [Hb [Hu [_ Hf]]]]]]];
                try discriminate H.
              injection Hb as <-. rewrite Hurl in Hu. injection Hu as <-.
              congruence.
           ++ intros status message H. discriminate H.
        -- split; [|split].
           ++ split; [discriminate|].
              intros [body [Hb [_ Hf]]]. injection Hb as <-.
              rewrite Hurl in Hf. congruence.
           ++ split; [|reflexivity]. intros _. right. right.
              exists (Json.VObject members), url. auto.
           ++ intros status message H. injection H as <- <-. now right.
      * split; [|split].
        -- split; [|reflexivity]. intros _.
           exists (Json.VObject members). rewrite Hurl.
           repeat split; [discriminate | exact Htruthy].
        -- split; [discriminate|].
           intros [H|[H|[body [u [Hb [Hu [Ht _]]]]]]];
             try discriminate H.
           injection Hb as <-. rewrite Hurl in Hu. injection Hu as <-.
           simpl in Htruthy, Ht. congruence.
        -- intros status message H. injection H as <- <-. now left.
    + assert (Hnone : Json.truthy (Json.property body "url") = false)
        by (rewrite Hurl; reflexivity).
      assert (Hcase :
                (body = Json.VNull
                 /\ Scrape.handle (Some body) fetch
                    = Scrape.Failure 500 "Failed to scrape article")
                \/ (body <> Json.VNull
                    /\ Scrape.handle (Some body) fetch
                       = Scrape.Failure 400 "URL is required")).
      { destruct body; unfold Scrape.handle; try rewrite Hurl;
          solve [ left; split; reflexivity
                | right; split; [discriminate | reflexivity] ]. }
      destruct Hcase as [[Hnull Heq]|[Hnn Heq]]; rewrite Heq.
      * subst body. split; [|split].
        -- split; [discriminate|].
           intros [b [Hb [Hne _]]]. injection Hb as <-. now elim Hne.
        -- split; [|reflexivity]. intros _. right. now left.
        -- intros status message H. injection H as <- <-. now right.
      * split; [|split].
        -- split; [|reflexivity]. intros _. exists body. auto.
        -- split; [discriminate|].
           intros [H|[H|[b [u [Hb [Hu _]]]]]].
           ++ discriminate H.
           ++ injection H as ->. now elim Hnn.
           ++ injection Hb as <-. rewrite Hurl in Hu. discriminate Hu.
        -- intros status message H. injection H as <- <-. now left.
  - unfold Scrape.handle. split; [|split].
    + split; [discriminate|]. intros [body [Hb _]]. discriminate Hb.
    + split; [|reflexivity]. intros _. now left.
    + intros status message H. injection H as <- <-. now right.
Qed.

Lemma scrape_handle_POST (u : string)
      (fetch : Json.Value -> option Scrape.Document) :
  Scrape.handle (Some (Json.VObject [ ("url", Json.VString u) ])) fetch
  = Scrape.replyOf
      (Scrape.POST (Some u) (fun s => fetch (Json.VString s))).
Proof.
  unfold Scrape.handle, Scrape.POST. simpl.
  destruct u as [|c r]; simpl; [reflexivity|].
  destruct (fetch (Json.VString (String c r))); reflexivity.
Qed.

(** X17. A successful answer of the scrape handler echoes the request URL,
    which is not empty; its title is not empty; its author and its
    publish date are absent rather than empty; its [content] has at
    most 2000 characters and is the whole body text when that has at
    most 2000; and its analysis is that of the body text extracted
    from the fetched document. *)
Theorem scrape_response_fields
        (url : option string) (fetch : string -> option Scrape.Document)
        (title u : string) (author publishDate : option string)
        (shown : string) (r : AnalysisResult) :
  Scrape.POST url fetch = Scrape.Ok title u author publishDate shown r ->
  url = Some u /\ u <> ""
  /\ title <> ""
  /\ author <> Some "" /\ publishDate <> Some ""
  /\ JS.strLen shown <= 2000
  /\ exists doc,
       fetch u = Some doc
       /\ title = Scrape.extractTitle doc
       /\ r = Scrape.generateAnalysis (Scrape.extractContent doc) title u
       /\ (JS.strLen (Scrape.extractContent doc) <= 2000 ->
           shown = Scrape.extractContent doc).
Proof.
  unfold Scrape.POST.
  destruct url as [[|c v]|]; try discriminate.
  destruct (fetch (String c v)) as [doc|] eqn:Hfetch; try discriminate.
  intros H. injection H as <- <- <- <- <- <-.
  split; [reflexivity|]. split; [discriminate|].
  split; [apply extractTitle_not_empty|].
  split; [apply orUndefined_not_empty|].
  split; [apply orUndefined_not_empty|]. split.
  - rewrite substring0_length. lia.
  - exists doc. split; [exact Hfetch|]. split; [reflexivity|].
    split; [reflexivity|]. apply substring0_all.
Qed.

Lemma scrape_response_fields_witness :
  JS.strLen
    (JS.substring0 2000 (Scrape.extractContent longDoc)) <= 2000.
Proof.
  apply (scrape_response_fields
           (Some "http://example.org/long") (fun _ => Some longDoc)
           (Scrape.extractTitle longDoc) "http://example.org/long"
           (Scrape.orUndefined (Scrape.extractAuthor longDoc))
           (Scrape.orUndefined (Scrape.extractPublishDate longDoc))
           (JS.substring0 2000 (Scrape.extractContent longDoc))
           (Scrape.generateAnalysis (Scrape.extractContent longDoc)
                                    (Scrape.extractTitle longDoc)
                                    "http://example.org/long")).
  reflexivity.
Defined.

(** ** Bodies without sentence punctuation *)

Lemma splitRuns_no_separator (sep : ascii -> bool) (s : string) :
  freeOf sep s -> JS.splitRuns sep false s = [s].
Proof.
  unfold freeOf. induction s as [|c r IH]; simpl; intros H.
  - reflexivity.
  - apply orb_false_iff in H. destruct H as [Hc Hr].
    rewrite Hc, (IH Hr). reflexivity.
Qed.

Lemma scrape_shortFlag_iff (content title : string) :
  In "Very short article with limited information"
     (Scrape.calcRedFlags content title)
  <-> List.length (Scrape.sentences content) < 5.
Proof.
  unfold Scrape.calcRedFlags, pushIf. rewrite <- Nat.ltb_lt.
  destruct (List.length (Scrape.sentences content) <? 5),
    (3 <? List.length (Scrape.foundEmotionalWords content)),
    (Scrape.citesNothing content), (Scrape.sensationalTitle title);
    decide_membership.
Qed.

Lemma filter_singleton_length {A : Type} (f : A -> bool) (x : A) :
  List.length (filter f [x]) <= 1.
Proof. simpl. destruct (f x); simpl; lia. Qed.

(** X18. A body without any ".", "!" or "?" is one sentence at most, however
    long it is: both routes raise their short-article flag for it and
    return at most one core claim. *)
Theorem unpunctuated_body_is_short (content title url : string) :
  freeOf isSentenceEnd content ->
  let a := Analyze.analyzeArticle content title url in
  let g := Scrape.generateAnalysis content title url in
  In "Article appears unusually short for the topic" (redFlags a)
  /\ In "Very short article with limited information" (redFlags g)
  /\ List.length (coreClaims a) <= 1
  /\ List.length (coreClaims g) <= 1.
Proof.
  intros Hfree.
  assert (Hsplit : JS.split isSentenceEnd content = [content])
    by now apply splitRuns_no_separator.
  assert (Ha : List.length (Analyze.sentences content) <= 1).
  { unfold Analyze.sentences. rewrite Hsplit.
    apply filter_singleton_length. }
  assert (Hg : List.length (Scrape.sentences content) <= 1).
  { unfold Scrape.sentences. rewrite Hsplit.
    apply filter_singleton_length. }
  cbn [Analyze.analyzeArticle Scrape.generateAnalysis redFlags coreClaims].
  cbv zeta.
  rewrite analyze_shortFlag_iff, scrape_shortFlag_iff.
  split; [lia|]. split; [lia|]. split.
  - unfold Analyze.potentialClaims, JS.slice0.
    rewrite length_firstn, length_map, length_firstn.
    pose proof (filter_length_le Analyze.hasIndicator
                  (Analyze.sentences content)). lia.
  - unfold Scrape.calcCoreClaims, JS.slice0.
    rewrite length_map, length_firstn.
    pose proof (filter_length_le
                  (fun s => 20 <? JS.strLen (JS.trim s))
                  (Scrape.sentences content)). lia.
Qed.

Lemma unpunctuated_body_is_short_witness :
  In "Very short article with limited information"
     (redFlags
        (Scrape.generateAnalysis
           (repeatString 300 "filler ") "Report" "")).
Proof.
  pose proof (unpunctuated_body_is_short
                (repeatString 300 "filler ") "Report" "") as H.
  cbv zeta in H. destruct H as [_ [Hflag _]].
  - vm_compute. reflexivity.
  - exact Hflag.
Defined.

(** X19. In the scrape route the strengths and weaknesses do not contradict
    each other: the qualifying-language strength is listed exactly when
    [hedgingLanguage] is not empty; the substantial-detail strength
    (over 500 characters) never comes with the limited-depth weakness
    (under 300); and the comprehensive-coverage strength (over 10
    sentences) never comes with the short-article flag (under 5). *)
Theorem scrape_strengths_consistent (content title url : string) :
  let r := Scrape.generateAnalysis content title url in
  let s := strengths (strengthsWeaknesses (overallAssessment r)) in
  let w := weaknesses (strengthsWeaknesses (overallAssessment r)) in
  (In "Uses qualifying language showing appropriate caution" s
   <-> hedgingLanguage (languageAnalysis r) <> [])
  /\ ~ (In "Provides substantial detail and context" s
        /\ In "Limited depth and detail in reporting" w)
  /\ ~ (In "Comprehensive coverage of the topic" s
        /\ In "Very short article with limited information" (redFlags r)).
Proof.
  cbn [Scrape.generateAnalysis overallAssessment strengthsWeaknesses
       strengths weaknesses languageAnalysis hedgingLanguage redFlags].
  cbv zeta. rewrite scrape_shortFlag_iff.
  unfold Scrape.calcStrengths, Scrape.calcWeaknesses.
  repeat rewrite In_pushIf. cbn [In].
  split; [|split].
  - rewrite slice0_nil_iff.
    destruct (Scrape.foundHedging content) as [|h hs]; simpl.
    + split; [|congruence].
      intros [[[[]|[H _]]|[_ H]]|[_ H]]; discriminate H.
    + split; [discriminate|]. intros _. left. left. right. now split.
  - intros [Hs Hw].
    assert (H500 : 500 < JS.strLen content).
    { destruct Hs as [[[[]|[_ H]]|[H _]]|[_ H]]; try discriminate H.
      now apply Nat.ltb_lt in H. }
    assert (H300 : JS.strLen content < 300).
    { destruct Hw as [[[[]|[_ H]]|[_ H]]|[H _]]; try discriminate H.
      now apply Nat.ltb_lt in H. }
    lia.
  - intros [Hs Hshort].
    assert (H10 : 10 < List.length (Scrape.sentences content)).
    { destruct Hs as [[[[]|[_ H]]|[_ H]]|[H _]]; try discriminate H.
      now apply Nat.ltb_lt in H. }
    lia.
Qed.

(** ** The analyze handler on any request *)

(** X20. The analyze handler answers 400 exactly when the request body
    was parsed, is not [null], and has a missing or falsy content or
    title.  It returns an analysis only when the content is a string
    that is not empty and the title is either such a string too, or an
    array with the element "!"; the analysis is then that of the
    content with that title, or with the title "!".  Every other
    request is answered with 500. *)
Theorem analyze_handle_answers (request : option Json.Value) :
  (Analyze.handle request
     = Analyze.Error 400 "Content and title are required"
   <-> exists body,
         request = Some body /\ body <> Json.VNull
         /\ (Json.truthy (Json.property body "content") = false
             \/ Json.truthy (Json.property body "title") = false))
  /\ (forall r,
        Analyze.handle request = Analyze.Ok r ->
        exists body c,
          request = Some body
          /\ Json.property body "content" = Some (Json.VString c)
          /\ c <> ""
          /\ ((exists t,
                 Json.property body "title" = Some (Json.VString t)
                 /\ t <> ""
                 /\ r = Analyze.analyzeArticle
                          c t (Json.urlText (Json.property body "url")))
              \/ (exists items,
                    Json.property body "title" = Some (Json.VArray items)
                    /\ existsb Json.isBang items = true
                    /\ r = Analyze.analyzeArticle
                             c "!"
                             (Json.urlText (Json.property body "url")))))
  /\ (forall status message,
        Analyze.handle request = Analyze.Error status message ->
        (status = 400 /\ message = "Content and title are required")
        \/ (status = 500 /\ message = "Failed to analyze article"))%Z.
Proof.
  destruct request as [body|].
  2:{ unfold Analyze.handle. split; [|split].
      - split; [discriminate|]. intros [b [Hb _]]. discriminate Hb.
      - intros r H. discriminate H.
      - intros status message H. injection H as <- <-. now right. }
  destruct (Json.truthy (Json.property body "content")) eqn:Hc.
  2:{ assert (Hcase :
                (body = Json.VNull
                 /\ Analyze.handle (Some body)
                    = Analyze.Error 500 "Failed to analyze article")
                \/ (body <> Json.VNull
                    /\ Analyze.handle (Some body)
                       = Analyze.Error 400 "Content and title are required")).
      { destruct body; unfold Analyze.handle; try rewrite Hc;
          solve [ left; split; reflexivity
                | right; split; [discriminate | reflexivity] ]. }
      destruct Hcase as [[Hnull Heq]|[Hnn Heq]]; rewrite Heq.
      - subst body. split; [|split].
        + split; [discriminate|].
          intros [b [Hb [Hne _]]]. injection Hb as <-. now elim Hne.
        + intros r H. discriminate H.
        + intros status message H. injection H as <- <-. now right.
      - split; [|split].
        + split; [|reflexivity]. intros _. exists body. auto.
        + intros r H. discriminate H.
        + intros status message H. injection H as <- <-. now left. }
  destruct body as [|b|x|str|items|members]; try discriminate Hc.
  unfold Analyze.handle. rewrite Hc.
  destruct (Json.truthy (Json.property (Json.VObject members) "title"))
    eqn:Ht; cbn [negb orb].
  2:{ split; [|split].
      - split; [|reflexivity]. intros _. exists (Json.VObject members).
        repeat split; [discriminate | now right].
      - intros r H. discriminate H.
      - intros status message H. injection H as <- <-. now left. }
  assert (Hnot400 :
            ~ exists body,
                Some (Json.VObject members) = Some body
                /\ body <> Json.VNull
                /\ (Json.truthy (Json.property body "content") = false
                    \/ Json.truthy (Json.property body "title") = false)).
  { intros [b [Hb [_ [H|H]]]]; injection Hb as <-; congruence. }
  destruct (Json.property (Json.VObject members) "content")
    as [[|cb|cx|c|citems|cmembers]|] eqn:Hcontent;
    try discriminate Hc;
    try (split; [split; [discriminate | intros H; now elim Hnot400]
                |split; [intros r H; discriminate H
                        |intros status message H;
                         injection H as <- <-; now right]]).
  destruct (Json.property (Json.VObject members) "title")
    as [[|tb|tx|t|titems|tmembers]|] eqn:Htitle;
    try discriminate Ht;
    try (split; [split; [discriminate | intros H; now elim Hnot400]
                |split; [intros r H; discriminate H
                        |intros status message H;
                         injection H as <- <-; now right]]).
  - split; [split; [discriminate | intros H; now elim Hnot400]|].
    split; [|intros status message H; discriminate H].
    intros r H. injection H as <-.
    exists (Json.VObject members), c. split; [reflexivity|].
    split; [exact Hcontent|]. split.
    + destruct c; [discriminate Hc | discriminate].
    + left. exists t. split; [exact Htitle|]. split; [|reflexivity].
      destruct t; [discriminate Ht | discriminate].
  - destruct (existsb Json.isBang titems) eqn:Hbang.
    + split; [split; [discriminate | intros H; now elim Hnot400]|].
      split; [|intros status message H; discriminate H].
      intros r H. injection H as <-.
      exists (Json.VObject members), c. split; [reflexivity|].
      split; [exact Hcontent|]. split.
      * destruct c; [discriminate Hc | discriminate].
      * right. exists titems. auto.
    + split; [split; [discriminate | intros H; now elim Hnot400]|].
      split; [intros r H; discriminate H|].
      intros status message H. injection H as <- <-. now right.
Qed.

Lemma analyze_handle_POST (content title : string) :
  Analyze.handle (Some (analyzeRequest content title))
  = Analyze.POST (Some content) (Some title) None.
Proof.
  unfold Analyze.handle, Analyze.POST, analyzeRequest.
  destruct content as [|c cs], title as [|t ts]; reflexivity.
Qed.

(** X21. The sensationalized-headline flag is raised in no other case
    than those of the title tests: in the analyze route exactly when
    the title has a "!" or equals its upper-case form, in the scrape
    route exactly when it has a "!" or contains "BREAKING". *)
Theorem sensational_flag_exactly (content title url : string) :
  (In sensationalFlag (redFlags (Analyze.analyzeArticle content title url))
   <-> JS.includes title "!" = true
       \/ JS.toUpperCase title = JS.codeUnits title)
  /\ (In sensationalFlag
         (redFlags (Scrape.generateAnalysis content title url))
      <-> JS.includes title "!" = true
          \/ JS.includes title "BREAKING" = true).
Proof.
  cbn [Analyze.analyzeArticle Scrape.generateAnalysis redFlags].
  rewrite analyze_sensationalFlag_iff, scrape_sensationalFlag_iff.
  unfold Analyze.sensationalTitle, Scrape.sensationalTitle.
  repeat rewrite orb_true_iff. rewrite sameUnits_true_iff.
  split; reflexivity.
Qed.

(** ** Checks on text outside the ASCII range *)

Example no_break_space_is_white_space :
  JS.trim (String (ascii_of_nat 160) "abc") = "abc"
  /\ JS.split JS.isSpace ("amazing" ++ String (ascii_of_nat 160) "amazing")
     = ["amazing"; "amazing"]
  /\ emotionalLanguage
       (languageAnalysis
          (Scrape.generateAnalysis
             ("amazing" ++ String (ascii_of_nat 160) "amazing") "t" ""))
     = ["amazing"; "amazing"].
Proof. vm_compute. repeat split. Qed.

(** "CAF" followed by U+00E9 is not its own upper-case form, and the
    upper-case form of U+00DF has two code units. *)
Example accented_title_not_upper_case :
  JS.toUpperCase ("CAF" ++ String (ascii_of_nat 233) "") = [67; 65; 70; 201]
  /\ Analyze.sensationalTitle ("CAF" ++ String (ascii_of_nat 233) "") = false
  /\ JS.toUpperCase (String (ascii_of_nat 223) "") = [83; 83]
  /\ JS.toLowerCase (String (ascii_of_nat 201) "COLE")
     = String (ascii_of_nat 233) "cole".
Proof. vm_compute. repeat split. Qed.

(** An article of 100 letters and a no-break space does not pass the
    threshold of 100 characters: the space is trimmed. *)
Example trimmed_before_threshold :
  let doc := docOf [ ("article",
                      [ (repeatString 100 "a"
                         ++ String (ascii_of_nat 160) "")%string ]) ] in
  pastThreshold doc "article" = false
  /\ JS.strLen (Scrape.extractContent doc) = 100.
Proof. vm_compute. split; reflexivity. Qed.

(** A segment of 10 characters after a no-break space is not a
    sentence of the analyze route, and a title is trimmed of it. *)
Example no_break_space_trimmed :
  coreClaims
    (Analyze.analyzeArticle
       ("Mr." ++ String (ascii_of_nat 160) "It is here") "t" "") = []
  /\ Scrape.extractTitle
       (docOf [ ("title", [ ("Foo" ++ String (ascii_of_nat 160) "")%string ]) ])
     = "Foo"
  /\ Scrape.extractTitle
       (docOf [ ("title", [ String (ascii_of_nat 160) "" ]);
                ("h1", [ "Heading" ]) ])
     = "Heading".
Proof. vm_compute. repeat split. Qed.
